(** * Story-Character-Extractor: a shallow embedding of [vector_db.py] and
    [process_stories.py], and the properties of the retrieval pipeline.

    Python values are modelled as the interpreter has them: a [str] is a
    sequence of code points, [bytes] a sequence of bytes, an [int] is a [Z].
    A call either returns a value or raises an exception; methods of the two
    classes run in a state-and-exception monad over the instance attribute
    [db], the file system at [db_path] and the trace of what was printed and
    which external capability was called.  Everything the repository imports
    from a library (the embedding provider, the FAISS store, the retrieval
    chain with its generation provider, [json.loads], the [os] calls) is a
    field of the record [World]: theorems quantify over every such world. *)

From Stdlib Require Import Ascii String List ZArith NArith Bool Lia.
From Stdlib.Strings Require Import Byte.
Import ListNotations.

Set Warnings "-register-all".

(** ** Python data *)

(** A Python [str]: its code points, in order. *)
Definition str := list N.

(** A Python [bytes] object. *)
Definition bytes := list byte.

(** A string literal of the source (all of them are ASCII). *)
Definition lit (s : string) : str := map N_of_ascii (list_ascii_of_string s).

(** [len(x)] as a Python [int]. *)
Definition len {A : Type} (l : list A) : Z := Z.of_nat (length l).

Definition str_eq_dec : forall a b : str, {a = b} + {a <> b} :=
  list_eq_dec N.eq_dec.

Definition str_eqb (a b : str) : bool :=
  if str_eq_dec a b then true else false.

(** The exception classes the two modules raise, name in an [except] clause,
    or receive from the libraries.  All of them derive from [Exception];
    [KeyboardInterrupt] and [SystemExit], which [except Exception] lets
    through, are process-level signals and have no place in this model. *)
Inductive exc_class : Type :=
| ValueError
| FileNotFoundError
| JSONDecodeError
| UnicodeDecodeError
| AttributeError
| IndexError
| OSError
| LibraryError (name : string).

(** An exception instance: its class and [str(e)]. *)
Record exn : Type := Exn { exc_type : exc_class; exc_str : str }.

Definition exc_class_eq_dec : forall a b : exc_class, {a = b} + {a <> b}.
Proof. decide equality. apply string_dec. Defined.

(** [isinstance(e, cls)] for the classes used in [except] clauses:
    [JSONDecodeError] has no subclass, so the test is equality. *)
Definition is_JSONDecodeError (e : exn) : bool :=
  if exc_class_eq_dec (exc_type e) JSONDecodeError then true else false.

(** The outcome of evaluating a Python expression. *)
Inductive pyresult (A : Type) : Type :=
| Return (a : A)
| Raise (e : exn).
Arguments Return {A} a.
Arguments Raise {A} e.

(** The values [json.loads] produces.  A [dict] keeps its items in insertion
    order; a [float] is kept as its literal. *)
Inductive pyvalue : Type :=
| PyNone
| PyBool (b : bool)
| PyInt (z : Z)
| PyFloat (literal : str)
| PyStr (s : str)
| PyList (items : list pyvalue)
| PyDict (items : list (str * pyvalue)).

(** [key in d] and [d[key]] on the items of a dict. *)
Fixpoint dict_get {V : Type} (key : str) (items : list (str * V)) : option V :=
  match items with
  | [] => None
  | (k, v) :: rest => if str_eqb k key then Some v else dict_get key rest
  end.



(** ** [bytes.decode("utf-8")]

    The strict decoder: shortest form only, no surrogates, nothing above
    U+10FFFF (the well-formed byte sequences of the Unicode standard). *)

Definition in_range (lo hi x : N) : bool := ((lo <=? x) && (x <=? hi))%N.

Definition continuation (x : N) : bool := in_range 128 191 x.

(** The range the second byte of a three- or four-byte sequence must be in,
    given the lead byte. *)
Definition second_byte_ok (lead x : N) : bool :=
  if (lead =? 224)%N then in_range 160 191 x
  else if (lead =? 237)%N then in_range 128 159 x
  else if (lead =? 240)%N then in_range 144 191 x
  else if (lead =? 244)%N then in_range 128 143 x
  else continuation x.

Fixpoint utf8_code_points (bs : bytes) : option str :=
  match bs with
  | [] => Some []
  | b0 :: r0 =>
    let x0 := Byte.to_N b0 in
    if (x0 <? 128)%N then option_map (cons x0) (utf8_code_points r0)
    else if in_range 194 223 x0 then
      match r0 with
      | b1 :: r1 =>
        let x1 := Byte.to_N b1 in
        if continuation x1
        then option_map (cons ((x0 - 192) * 64 + (x1 - 128))%N)
                        (utf8_code_points r1)
        else None
      | _ => None
      end
    else if in_range 224 239 x0 then
      match r0 with
      | b1 :: b2 :: r2 =>
        let x1 := Byte.to_N b1 in
        let x2 := Byte.to_N b2 in
        if second_byte_ok x0 x1 && continuation x2
        then option_map
               (cons ((x0 - 224) * 4096 + (x1 - 128) * 64 + (x2 - 128))%N)
               (utf8_code_points r2)
        else None
      | _ => None
      end
    else if in_range 240 244 x0 then
      match r0 with
      | b1 :: b2 :: b3 :: r3 =>
        let x1 := Byte.to_N b1 in
        let x2 := Byte.to_N b2 in
        let x3 := Byte.to_N b3 in
        if second_byte_ok x0 x1 && continuation x2 && continuation x3
        then option_map
               (cons ((x0 - 240) * 262144 + (x1 - 128) * 4096
                      + (x2 - 128) * 64 + (x3 - 128))%N)
               (utf8_code_points r3)
        else None
      | _ => None
      end
    else None
  end.

(** ** [str] methods *)

(** [s.startswith(prefix)]. *)
Fixpoint startswith (prefix s : str) : bool :=
  match prefix, s with
  | [], _ => true
  | p :: prefix', c :: s' => (p =? c)%N && startswith prefix' s'
  | _ :: _, [] => false
  end.

(** The scan behind [replace] and [split]: [skip] counts the characters of
    the occurrence just matched that are still to be passed over. *)
Fixpoint replace_scan (old new : str) (skip : nat) (s : str) : str :=
  match s with
  | [] => []
  | c :: s' =>
    match skip with
    | S k => replace_scan old new k s'
    | O =>
      if startswith old s
      then new ++ replace_scan old new (length old - 1) s'
      else c :: replace_scan old new 0 s'
    end
  end.

(** [s.replace(old, new)]: every non-overlapping occurrence, left to right.
    With an empty [old], [new] is put before every character and at the
    end. *)
Definition replace (s old new : str) : str :=
  match old with
  | [] => new ++ flat_map (fun c => c :: new) s
  | _ :: _ => replace_scan old new 0 s
  end.

Fixpoint split_scan (sep : str) (skip : nat) (unit_rev : str) (s : str)
  : list str :=
  match s with
  | [] => [rev unit_rev]
  | c :: s' =>
    match skip with
    | S k => split_scan sep k unit_rev s'
    | O =>
      if startswith sep s
      then rev unit_rev :: split_scan sep (length sep - 1) [] s'
      else split_scan sep 0 (c :: unit_rev) s'
    end
  end.

(** [s.split(sep)] for a non-empty separator (the units between the
    occurrences, empty ones included). *)
Definition split (s sep : str) : list str := split_scan sep 0 [] s.

(** [sep.join(parts)]. *)
Fixpoint join (sep : str) (parts : list str) : str :=
  match parts with
  | [] => []
  | [p] => p
  | p :: rest => p ++ sep ++ join sep rest
  end.

(** [c.isspace()]. *)
Definition isspace (c : N) : bool :=
  (in_range 9 13 c || in_range 28 32 c || (c =? 133) || (c =? 160)
   || (c =? 5760) || in_range 8192 8202 c || (c =? 8232) || (c =? 8233)
   || (c =? 8239) || (c =? 8287) || (c =? 12288))%N.

Fixpoint lstrip (s : str) : str :=
  match s with
  | [] => []
  | c :: s' => if isspace c then lstrip s' else s
  end.

(** [s.strip()]. *)
Definition strip (s : str) : str := rev (lstrip (rev (lstrip s))).

(** [not x] on a list: the empty list is falsy. *)
Definition falsy {A : Type} (l : list A) : bool :=
  match l with [] => true | _ :: _ => false end.

(** ** Documents and the text splitter *)

(** [langchain.schema.Document]: the text and its metadata dict. *)
Record Document : Type :=
  { page_content : str; metadata : list (str * str) }.

Module CharacterTextSplitter.

(** The splitter and the keyword arguments [compute_embeddings] builds it
    with; [strip_whitespace] is the library's flag (on unless turned
    off). *)
Record t : Type :=
  { chunk_size : Z;
    chunk_overlap : Z;
    separator : str;
    strip_whitespace : bool }.

Section Splitter.
Variable ts : t.

(** Modelled from the spec: the Chunker of section 4.1 is LangChain's
    [CharacterTextSplitter], which is not under [src/].  "Split text on
    separator into units": the non-empty units between the occurrences of
    the separator. *)
Definition units (text : str) : list str :=
  filter (fun u => negb (falsy u))
         (match separator ts with
          | [] => map (fun c => [c]) text
          | _ :: _ => split text (separator ts)
          end).

(** Modelled from the spec: closing a chunk (the Chunker is not under
    [src/]).  The packed units are joined by the separator and, when the
    splitter strips whitespace, the chunk is stripped; an empty chunk is
    not emitted. *)
Definition join_docs (docs : list str) : option str :=
  let text := join (separator ts) docs in
  let text := if strip_whitespace ts then strip text else text in
  if falsy text then None else Some text.

Definition emit (docs : list str) (current_doc : list str) : list str :=
  match join_docs current_doc with
  | Some doc => docs ++ [doc]
  | None => docs
  end.

(** The separator counted in [total] between two packed units. *)
Definition sep_after (n : nat) (current_doc : list str) : Z :=
  if (Z.of_nat n <? len current_doc)%Z then len (separator ts) else 0%Z.

(** Modelled from the spec: "when closing a chunk, carry forward the
    trailing [chunk_overlap] characters" (the Chunker is not under
    [src/]).  As in the library's merge loop the overlap is carried in
    whole units: leading units are dropped while more than
    [chunk_overlap] characters remain, or while the next unit would still
    not fit.  Popping from an empty list is Python's [IndexError]. *)
Fixpoint pop_front (next_len : Z) (current_doc : list str) (total : Z)
  : pyresult (list str * Z) :=
  if ((chunk_overlap ts <? total)
      || ((chunk_size ts <? total + next_len + sep_after 0 current_doc)
          && (0 <? total)))%Z
  then
    match current_doc with
    | [] => Raise (Exn IndexError (lit "list index out of range"))
    | first :: rest =>
      pop_front next_len rest
                (total - (len first + sep_after 1 current_doc))%Z
    end
  else Return (current_doc, total).

(** Modelled from the spec: "greedily pack consecutive units into a chunk
    until adding the next unit would exceed [chunk_size]" (the Chunker is
    not under [src/]).  [total] is the length of the open chunk; a unit
    that does not fit closes the chunk, the overlap is carried forward
    and the unit opens the next chunk, alone if nothing could be
    carried. *)
Fixpoint merge_loop (splits : list str) (docs : list str)
         (current_doc : list str) (total : Z) : pyresult (list str) :=
  match splits with
  | [] => Return (emit docs current_doc)
  | d :: rest =>
    if ((chunk_size ts <? total + len d + sep_after 0 current_doc)
        && negb (falsy current_doc))%Z
    then
      match pop_front (len d) current_doc total with
      | Raise e => Raise e
      | Return (cd, tot) =>
        merge_loop rest (emit docs current_doc) (cd ++ [d])
                   (tot + len d + sep_after 1 (cd ++ [d]))%Z
      end
    else
      merge_loop rest docs (current_doc ++ [d])
                 (total + len d + sep_after 1 (current_doc ++ [d]))%Z
  end.

Definition merge_splits (splits : list str) : pyresult (list str) :=
  merge_loop splits [] [] 0%Z.

(** Modelled from the spec: [split] of section 4.1 on one text (the
    Chunker is not under [src/]). *)
Definition split_text (text : str) : pyresult (list str) :=
  merge_splits (units text).

(** Modelled from the spec: [split] of section 4.1 on a list of
    Documents (the Chunker is not under [src/]); every chunk inherits the
    metadata of its document, in document order then position. *)
Fixpoint split_documents (documents : list Document)
  : pyresult (list Document) :=
  match documents with
  | [] => Return []
  | doc :: rest =>
    match split_text (page_content doc) with
    | Raise e => Raise e
    | Return chunks =>
      match split_documents rest with
      | Raise e => Raise e
      | Return more =>
        Return (map (fun chunk => {| page_content := chunk;
                                     metadata := metadata doc |}) chunks
                ++ more)
      end
    end
  end.
End Splitter.

End CharacterTextSplitter.

(** ** The world outside the repository *)

(** Modelled from the spec: the Vector Index of section 3 (LangChain's
    [FAISS] store, which is not under [src/]): the ordered collection of
    indexed entries, each a chunk with its embedding. *)
Definition FAISS (vector : Type) : Type := list (Document * vector).

(** What the two modules call and do not define.  [Disk] is the state of
    the file system at [db_path]; a call that fails raises and, for
    [os.remove], leaves the disk as it was. *)
Record World : Type :=
  { vector : Type;
    Disk : Type;
    (** the embedding provider, on one text *)
    embed : str -> pyresult vector;
    (** [FAISS.similarity_search(query, k)] *)
    index_search : FAISS vector -> str -> Z -> pyresult (list Document);
    (** [FAISS.save_local(path)] and [FAISS.load_local(path, ...)] *)
    save_local : FAISS vector -> Disk -> pyresult unit * Disk;
    load_local : Disk -> pyresult (FAISS vector);
    (** [os.path.exists(path)] and [os.remove(path)] *)
    os_path_exists : Disk -> bool;
    os_remove : Disk -> pyresult Disk;
    (** [RetrievalQA.from_chain_type(...).run(query)] with the prompt
        template of the processor: retrieval of [k] chunks from the index,
        the prompt, and the generation provider *)
    qa_chain_run : FAISS vector -> Z -> str -> pyresult str;
    (** [json.loads] *)
    json_loads : str -> pyresult pyvalue;
    (** the text of the [UnicodeDecodeError] the codec raises on these
        bytes *)
    codec_error : bytes -> str }.

(** What a call leaves behind, besides its result. *)
Inductive event : Type :=
| Print (line : str)
| EmbedDocuments (texts : list str)
| SaveLocal
| LoadLocal
| OsRemove
| ChainRun (query : str)
| IndexSearch (query : str) (k : Z).

(** The attribute [self.db] of the one [VectorDB] instance, the disk at
    [self.db_path], and the events so far (oldest first). *)
Record State (W : World) : Type :=
  { db : option (FAISS (vector W));
    disk : Disk W;
    trace : list event }.
Arguments Build_State {W} db disk trace.
Arguments db {W} s.
Arguments disk {W} s.
Arguments trace {W} s.

(** ** The state-and-exception monad of a method body *)

Definition Py (W : World) (A : Type) : Type :=
  State W -> pyresult A * State W.

Section Monad.
Variable W : World.

Definition ret {A : Type} (a : A) : Py W A := fun st => (Return a, st).

Definition bind {A B : Type} (m : Py W A) (k : A -> Py W B) : Py W B :=
  fun st =>
    match m st with
    | (Return a, st') => k a st'
    | (Raise e, st') => (Raise e, st')
    end.

Definition raise {A : Type} (e : exn) : Py W A := fun st => (Raise e, st).

(** [try: body / except Exception as e: handler]: what the body did to
    the state before it raised stays done. *)
Definition try_except {A : Type} (body : Py W A) (handler : exn -> Py W A)
  : Py W A :=
  fun st =>
    match body st with
    | (Return a, st') => (Return a, st')
    | (Raise e, st') => handler e st'
    end.

(** [try: body / except cls: handler] for the class test [caught]. *)
Definition try_except_class {A : Type} (caught : exn -> bool)
           (body : Py W A) (handler : exn -> Py W A) : Py W A :=
  fun st =>
    match body st with
    | (Return a, st') => (Return a, st')
    | (Raise e, st') => if caught e then handler e st' else (Raise e, st')
    end.

Definition lift {A : Type} (r : pyresult A) : Py W A := fun st => (r, st).

Definition log (ev : event) : Py W unit :=
  fun st => (Return tt, {| db := db st; disk := disk st;
                           trace := trace st ++ [ev] |}).

Definition print (line : str) : Py W unit := log (Print line).

Definition get_db : Py W (option (FAISS (vector W))) :=
  fun st => (Return (db st), st).

Definition set_db (v : option (FAISS (vector W))) : Py W unit :=
  fun st => (Return tt, {| db := v; disk := disk st; trace := trace st |}).

Definition get_disk : Py W (Disk W) := fun st => (Return (disk st), st).

Definition set_disk (d : Disk W) : Py W unit :=
  fun st => (Return tt, {| db := db st; disk := d; trace := trace st |}).

(** [if cond: raise e]. *)
Definition raise_if (cond : bool) (e : exn) : Py W unit :=
  if cond then raise e else ret tt.
End Monad.

Arguments ret {W A} a.
Arguments bind {W A B} m k.
Arguments raise {W A} e.
Arguments try_except {W A} body handler.
Arguments try_except_class {W A} caught body handler.
Arguments lift {W A} r.
Arguments log {W} ev.
Arguments print {W} line.
Arguments get_db {W}.
Arguments set_db {W} v.
Arguments get_disk {W}.
Arguments set_disk {W} d.
Arguments raise_if {W} cond e.

Declare Scope py_scope.
Delimit Scope py_scope with py.
Notation "x <- m ;; k" := (bind m (fun x => k))
  (at level 61, m at next level, right associativity) : py_scope.
Notation "m ;; k" := (bind m (fun _ => k))
  (at level 61, right associativity) : py_scope.

(** ** Calls into the libraries *)

Section Library.
Variable W : World.
Local Open Scope py_scope.

(** The provider on a batch of texts: the first failure aborts the batch. *)
Fixpoint embed_documents (texts : list str) : pyresult (list (vector W)) :=
  match texts with
  | [] => Return []
  | text :: rest =>
    match embed W text with
    | Raise e => Raise e
    | Return v =>
      match embed_documents rest with
      | Raise e => Raise e
      | Return vs => Return (v :: vs)
      end
    end
  end.

(** Modelled from the spec: [build] of section 4.2 ([FAISS.from_documents]
    is not under [src/]): one embedding per chunk from the provider, whose
    failure aborts the build; the entries in chunk order. *)
Definition FAISS_from_documents (docs : list Document)
  : Py W (FAISS (vector W)) :=
  log (EmbedDocuments (map page_content docs)) ;;
  vs <- lift (embed_documents (map page_content docs)) ;;
  ret (combine docs vs).

(** The write may fail half way: the disk is whatever the call left. *)
Definition FAISS_save_local (index : FAISS (vector W)) : Py W unit :=
  fun st =>
    let (outcome, d') := save_local W index (disk st) in
    (outcome, {| db := db st; disk := d';
                 trace := trace st ++ [SaveLocal] |}).

Definition FAISS_load_local : Py W (FAISS (vector W)) :=
  log LoadLocal ;;
  d <- get_disk ;;
  lift (load_local W d).

Definition path_exists : Py W bool :=
  d <- get_disk ;; ret (os_path_exists W d).

Definition remove : Py W unit :=
  log OsRemove ;;
  d <- get_disk ;;
  d' <- lift (os_remove W d) ;;
  set_disk d'.

Definition FAISS_similarity_search (index : FAISS (vector W))
           (query : str) (k : Z) : Py W (list Document) :=
  log (IndexSearch query k) ;;
  lift (index_search W index query k).

Definition RetrievalQA_run (index : FAISS (vector W)) (k : Z) (query : str)
  : Py W str :=
  log (ChainRun query) ;;
  lift (qa_chain_run W index k query).

(** [data.decode("utf-8")]. *)
Definition decode_utf8 (data : bytes) : pyresult str :=
  match utf8_code_points data with
  | Some text => Return text
  | None => Raise (Exn UnicodeDecodeError (codec_error W data))
  end.
End Library.

(** ** [vector_db.py] *)

(** An element of the [documents] argument: [Union[str, Document]]. *)
Inductive str_or_document : Type :=
| Text (text : str)
| Doc (doc : Document).

Module VectorDB.
Section Methods.
Variable W : World.
Local Open Scope py_scope.

Definition db_path : str := lit "vector_store.faiss".

Definition _ensure_documents (documents : list str_or_document)
  : list Document :=
  map (fun doc =>
         match doc with
         | Doc d => d
         | Text text => {| page_content := text; metadata := [] |}
         end)
      documents.

Definition save_vector_db : Py W bool :=
  try_except
    (cur <- get_db ;;
     match cur with
     | None => raise (Exn ValueError (lit "No database to save"))
     | Some index =>
       FAISS_save_local W index ;;
       print (lit "Successfully saved vector database to " ++ db_path) ;;
       ret true
     end)
    (fun e =>
       print (lit "Error saving vector database: " ++ exc_str e) ;;
       ret false).

Definition create_vector_db (documents : list str_or_document)
  : Py W bool :=
  try_except
    (raise_if (falsy documents)
              (Exn ValueError
                   (lit "No documents provided for initialization")) ;;
     let docs := _ensure_documents documents in
     index <- FAISS_from_documents W docs ;;
     set_db (Some index) ;;
     save_vector_db)
    (fun e =>
       print (lit "Error creating vector database: " ++ exc_str e) ;;
       ret false).

Definition load_vector_db : Py W bool :=
  try_except
    (found <- path_exists W ;;
     raise_if (negb found)
              (Exn FileNotFoundError
                   (lit "No vector database found at " ++ db_path)) ;;
     index <- FAISS_load_local W ;;
     set_db (Some index) ;;
     print (lit "Successfully loaded vector database from " ++ db_path) ;;
     ret true)
    (fun e =>
       print (lit "Error loading vector database: " ++ exc_str e) ;;
       ret false).

(** The error of a search before any index exists. *)
Definition NotInitialized : exn :=
  Exn ValueError
      (lit "Vector database not initialized. Please create or load it first.").

Definition similarity_search (query : str) (k : Z)
  : Py W (list Document) :=
  cur <- get_db ;;
  match cur with
  | None => raise NotInitialized
  | Some index => FAISS_similarity_search W index query k
  end.

Definition clear_vector_db : Py W bool :=
  try_except
    (found <- path_exists W ;;
     (if found then remove W else ret tt) ;;
     set_db None ;;
     ret true)
    (fun e =>
       print (lit "Error clearing vector database: " ++ exc_str e) ;;
       ret false).
End Methods.
End VectorDB.

(** ** [process_stories.py] *)

(** An uploaded file: its name and the bytes [read()] returns. *)
Record UploadedFile : Type := { name : str; read : bytes }.

Module StoryProcessor.
Section Methods.
Variable W : World.
Local Open Scope py_scope.

Definition newline : str := [10%N].

(** [CharacterTextSplitter(chunk_size=1000, chunk_overlap=200,
    separator="\n")]. *)
Definition text_splitter : CharacterTextSplitter.t :=
  {| CharacterTextSplitter.chunk_size := 1000;
     CharacterTextSplitter.chunk_overlap := 200;
     CharacterTextSplitter.separator := newline;
     CharacterTextSplitter.strip_whitespace := true |}.

(** The title of the document made from a file. *)
Definition title_of (file : UploadedFile) : str :=
  replace (name file) (lit ".txt") (lit "").

(** The [for file in files] loop, with its [try]/[except]/[continue]. *)
Fixpoint read_files (files : list UploadedFile) (documents : list Document)
  : Py W (list Document) :=
  match files with
  | [] => ret documents
  | file :: rest =>
    documents' <-
      try_except
        (content <- lift (decode_utf8 W (read file)) ;;
         let title := title_of file in
         ret (documents ++ [{| page_content := content;
                               metadata := [(lit "title", title)] |}]))
        (fun e =>
           print (lit "Error processing file " ++ name file ++ lit ": "
                      ++ exc_str e) ;;
           ret documents) ;;
    read_files rest documents'
  end.

Definition compute_embeddings (files : list UploadedFile) : Py W str :=
  try_except
    (raise_if (falsy files) (Exn ValueError (lit "No files provided")) ;;
     documents <- read_files files [] ;;
     raise_if (falsy documents)
              (Exn ValueError
                   (lit "No valid documents found in provided files")) ;;
     texts <- lift (CharacterTextSplitter.split_documents
                      text_splitter documents) ;;
     success <- VectorDB.create_vector_db W (map Doc texts) ;;
     if success : bool
     then ret (lit "Embeddings computed and stored successfully")
     else ret (lit "Error storing embeddings"))
    (fun e => ret (lit "Error computing embeddings: " ++ exc_str e)).

(** The dict [{"error": message}]. *)
Definition error_result (message : str) : pyvalue :=
  PyDict [(lit "error", PyStr message)].

Definition get_character_info (character_name : str) : Py W pyvalue :=
  try_except
    (cur <- get_db ;;
     match cur with
     | None =>
       success <- VectorDB.load_vector_db W ;;
       raise_if (negb success)
                (Exn ValueError (lit "Failed to load vector database"))
     | Some _ => ret tt
     end ;;
     cur <- get_db ;;
     match cur with
     | None =>
       raise (Exn AttributeError
                  (lit "'NoneType' object has no attribute 'as_retriever'"))
     | Some index =>
       response <- RetrievalQA_run W index 4 character_name ;;
       try_except_class is_JSONDecodeError
         (result <- lift (json_loads W response) ;;
          ret result)
         (fun _ =>
            ret (error_result (lit "Failed to parse character information")))
     end)
    (fun e =>
       ret (error_result
              (lit "Error getting character information: " ++ exc_str e))).

Definition clean_up : Py W bool := VectorDB.clear_vector_db W.
End Methods.
End StoryProcessor.

(** ** The retrieval chain as the processor builds it *)

(** The input variables of the prompt template ([_setup_prompt_template]). *)
Definition prompt_input_variables : list str :=
  [lit "context"; lit "character"].

(** What the "stuff" chain of [RetrievalQA] gives its prompt: the retrieved
    documents under ["context"] and the query under ["question"]. *)
Definition stuff_chain_inputs : list str := [lit "context"; lit "question"].

(** The variables of the template the chain has no value for. *)
Definition missing_inputs : list str :=
  filter (fun v => negb (existsb (str_eqb v) stuff_chain_inputs))
         prompt_input_variables.

(** The chain's [ValueError] for them. *)
Definition missing_inputs_error : exn :=
  Exn ValueError
      (lit "Missing some input keys: {"
           ++ join (lit ", ") (map (fun v => lit "'" ++ v ++ lit "'")
                                   missing_inputs)
           ++ lit "}").

(** [qa_chain.run(query)]: the retriever is asked first; the chain then
    refuses to go on with an input of its prompt missing, and asks the
    generation provider ([generate], on the retrieved documents) only when
    none is. *)
Definition chain_run (retrieved : pyresult (list Document))
           (generate : list Document -> pyresult str) : pyresult str :=
  match retrieved with
  | Raise e => Raise e
  | Return docs =>
    if falsy missing_inputs then generate docs else Raise missing_inputs_error
  end.

(** A world whose chain is the one [get_character_info] builds: retrieval
    with the index's search, then [chain_run], for some generation
    provider. *)
Definition runs_the_chain (W : World) : Prop :=
  exists generate : str -> list Document -> pyresult str,
    forall index k query,
      qa_chain_run W index k query
      = chain_run (index_search W index query k) (generate query).

(** ** A concrete world

    Small stand-ins for the libraries, used to run the methods on concrete
    inputs.  The embedding of a text is its length, and a search, which
    embeds the query, returns the first [k] chunks.  At [db_path] there is
    nothing, or the directory [save_local] wrote with the index in it:
    [os.remove] refuses a directory, and finds nothing to remove where
    nothing is.  The chain is the one the processor builds, over a
    generation provider that would answer a fixed text; [json.loads] knows
    the listed texts. *)

Module Sim.

Inductive store : Type :=
| Absent
| Saved (index : FAISS Z).

Record setup : Type :=
  { provider_up : bool;
    write_protected : bool;
    completion : pyresult str;
    json_table : list (str * pyvalue) }.

Definition provider_down : exn :=
  Exn (LibraryError "ConnectionError") (lit "embedding provider unreachable").

Definition permission_denied : exn :=
  Exn OSError (lit "[Errno 13] Permission denied: 'vector_store.faiss'").

Definition is_a_directory : exn :=
  Exn OSError (lit "[Errno 21] Is a directory: 'vector_store.faiss'").

Definition no_such_file : exn :=
  Exn FileNotFoundError
      (lit "[Errno 2] No such file or directory: 'vector_store.faiss'").

Definition not_json : exn :=
  Exn JSONDecodeError (lit "Expecting value: line 1 column 1 (char 0)").

Definition search (s : setup) (index : FAISS Z) (query : str) (k : Z)
  : pyresult (list Document) :=
  if provider_up s then Return (firstn (Z.to_nat k) (map fst index))
  else Raise provider_down.

Definition world (s : setup) : World :=
  {| vector := Z;
     Disk := store;
     embed := fun text =>
                if provider_up s then Return (len text)
                else Raise provider_down;
     index_search := search s;
     save_local := fun index d =>
                     if write_protected s then (Raise permission_denied, d)
                     else (Return tt, Saved index);
     load_local := fun d =>
                     match d with
                     | Saved index => Return index
                     | Absent =>
                       Raise (Exn (LibraryError "RuntimeError")
                                  (lit "could not open vector_store.faiss"))
                     end;
     os_path_exists := fun d =>
                         match d with Saved _ => true | Absent => false end;
     os_remove := fun d =>
                    match d with
                    | Saved _ => Raise is_a_directory
                    | Absent => Raise no_such_file
                    end;
     qa_chain_run := fun index k query =>
                       chain_run (search s index query k)
                                 (fun _ => completion s);
     json_loads := fun text =>
                     match dict_get text (json_table s) with
                     | Some v => Return v
                     | None => Raise not_json
                     end;
     codec_error := fun _ =>
                      lit "'utf-8' codec can't decode byte: invalid start byte"
  |}.

(** The double quote, for JSON texts. *)
Definition q : str := [34%N].

(** The story of the end-to-end scenario, as a chunk titled "Tale". *)
Definition tale : Document :=
  {| page_content := lit "Alice met Bob. Alice helped Bob escape the forest.";
     metadata := [(lit "title", lit "Tale")] |}.

Definition tale_index : FAISS Z := [(tale, len (page_content tale))].

(** Everything works; the generation provider would answer [text], which
    parses as [v]. *)
Definition answering (text : str) (v : pyvalue) : setup :=
  {| provider_up := true; write_protected := false;
     completion := Return text; json_table := [(text, v)] |}.

(** Everything works; the generation provider would answer [text], which
    is not JSON. *)
Definition babbling (text : str) : setup :=
  {| provider_up := true; write_protected := false;
     completion := Return text; json_table := [] |}.

(** Everything works; the generation provider would answer with the empty
    text. *)
Definition healthy : setup := babbling [].

(** The disk refuses writes. *)
Definition read_only : setup :=
  {| provider_up := true; write_protected := true;
     completion := Return []; json_table := [] |}.

(** The embedding provider is down. *)
Definition offline : setup :=
  {| provider_up := false; write_protected := false;
     completion := Return []; json_table := [] |}.

(** A fresh process: no index in memory, the given disk, nothing printed. *)
Definition fresh (s : setup) (d : store) : State (world s) :=
  @Build_State (world s) None d [].

(** A process with [index] in memory. *)
Definition loaded (s : setup) (index : FAISS Z) (d : store)
  : State (world s) :=
  @Build_State (world s) (Some index) d [].


(** The answer of the end-to-end scenario of the specification. *)
Definition field (key : string) (value : str) : str :=
  q ++ lit key ++ q ++ lit ":" ++ value.

Definition quoted (s : string) : str := q ++ lit s ++ q.

Definition alice_text : str :=
  lit "{" ++ field "name" (quoted "Alice") ++ lit ","
      ++ field "storyTitle" (quoted "Tale") ++ lit ","
      ++ field "summary" (quoted "Helped Bob escape.") ++ lit ","
      ++ field "relations"
           (lit "[{" ++ field "name" (quoted "Bob") ++ lit ","
                ++ field "relation" (quoted "ally") ++ lit "}]")
      ++ lit ","
      ++ field "characterType" (quoted "protagonist") ++ lit "}".

Definition alice_value : pyvalue :=
  PyDict [(lit "name", PyStr (lit "Alice"));
          (lit "storyTitle", PyStr (lit "Tale"));
          (lit "summary", PyStr (lit "Helped Bob escape."));
          (lit "relations",
           PyList [PyDict [(lit "name", PyStr (lit "Bob"));
                           (lit "relation", PyStr (lit "ally"))]]);
          (lit "characterType", PyStr (lit "protagonist"))].

End Sim.

(** ** The Character Info Result shape (section 3 of the specification) *)

Definition is_str (v : pyvalue) : bool :=
  match v with PyStr _ => true | _ => false end.

Definition is_relation (v : pyvalue) : bool :=
  match v with
  | PyDict items =>
    (len items =? 2)%Z
    && match dict_get (lit "name") items, dict_get (lit "relation") items with
       | Some n, Some r => is_str n && is_str r
       | _, _ => false
       end
  | _ => false
  end.

Definition is_character_type (v : pyvalue) : bool :=
  match v with
  | PyStr s =>
    str_eqb s (lit "protagonist") || str_eqb s (lit "antagonist")
    || str_eqb s (lit "supporting")
  | _ => false
  end.

(** [{name, storyTitle, summary, characterType, relations}] and nothing
    else. *)
Definition is_character_info (v : pyvalue) : bool :=
  match v with
  | PyDict items =>
    (len items =? 5)%Z
    && match dict_get (lit "name") items, dict_get (lit "storyTitle") items,
             dict_get (lit "summary") items,
             dict_get (lit "characterType") items,
             dict_get (lit "relations") items with
       | Some n, Some t, Some s, Some c, Some (PyList rs) =>
         is_str n && is_str t && is_str s && is_character_type c
         && forallb is_relation rs
       | _, _, _, _, _ => false
       end
  | _ => false
  end.


(** ** Reading a run

    The state with more events, and the files of an upload that decode. *)

Definition with_trace {W : World} (st : State W) (evs : list event) : State W :=
  {| db := db st; disk := disk st; trace := trace st ++ evs |}.

(** The documents of the files that decode, in upload order. *)
Definition decoded_documents (files : list UploadedFile) : list Document :=
  flat_map
    (fun file =>
       match utf8_code_points (read file) with
       | Some content =>
         [{| page_content := content;
             metadata := [(lit "title", StoryProcessor.title_of file)] |}]
       | None => []
       end)
    files.

(** The warning printed for each file that does not decode. *)
Definition decode_warnings (W : World) (files : list UploadedFile)
  : list event :=
  flat_map
    (fun file =>
       match utf8_code_points (read file) with
       | Some _ => []
       | None =>
         [Print (lit "Error processing file " ++ name file ++ lit ": "
                     ++ codec_error W (read file))]
       end)
    files.

(** What the call answers once an index is in memory. *)
Definition answer_from (W : World) (index : FAISS (vector W))
           (character_name : str) : pyvalue :=
  match qa_chain_run W index 4 character_name with
  | Raise e =>
    StoryProcessor.error_result
      (lit "Error getting character information: " ++ exc_str e)
  | Return response =>
    match json_loads W response with
    | Return result => result
    | Raise e =>
      if is_JSONDecodeError e
      then StoryProcessor.error_result
             (lit "Failed to parse character information")
      else StoryProcessor.error_result
             (lit "Error getting character information: " ++ exc_str e)
    end
  end.

(** ** Reading a chunk

    What a chunk of the splitter is made of. *)

(** The text of a closed chunk, from the joined units. *)
Definition finish (ts : CharacterTextSplitter.t) (text : str) : str :=
  if CharacterTextSplitter.strip_whitespace ts then strip text else text.

(** A chunk is within [chunk_size], or it is one unit, longer than
    [chunk_size], kept whole. *)
Definition chunk_ok (ts : CharacterTextSplitter.t) (units : list str)
           (chunk : str) : Prop :=
  (len chunk <= CharacterTextSplitter.chunk_size ts)%Z
  \/ exists u, In u units
               /\ (CharacterTextSplitter.chunk_size ts < len u)%Z
               /\ chunk = finish ts u.

(** The open chunk of the merge loop: [total] is the length of its joined
    units, none of which is empty. *)
Definition open_chunk (ts : CharacterTextSplitter.t) (cd : list str)
           (total : Z) : Prop :=
  total = len (join (CharacterTextSplitter.separator ts) cd)
  /\ Forall (fun u => falsy u = false) cd.

(** The specification's title: the file name minus its extension, that is
    without a trailing [".txt"], the rest unchanged. *)
Definition name_minus_extension (file_name : str) : str :=
  let n := (length file_name - length (lit ".txt"))%nat in
  if str_eqb (skipn n file_name) (lit ".txt")
  then firstn n file_name
  else file_name.

(** ** [app.py] *)

(** [sub in s] on strings. *)
Fixpoint occurs (sub s : str) : bool :=
  startswith sub s
  || match s with
     | [] => false
     | _ :: s' => occurs sub s'
     end.

(** A call that shows a message box. *)
Inductive ui_call : Type :=
| St_success (body : str)
| St_error (body : str).

Module App.

Section Startup.
(** The processor object, and what the start of the app reads from its
    host: [os.getenv('MISTRAL_API_KEY')],
    [st.secrets.get('MISTRAL_API_KEY')] (a string when the secret is set;
    the call raises when there is no secrets file) and the constructor
    [StoryProcessor(api_key=...)]. *)
Variable Processor : Type.
Variable getenv : option str.
Variable secrets_get : pyresult (option str).
Variable new_processor : str -> pyresult Processor.

(** Truthiness of an optional string: [None] and [""] are falsy. *)
Definition truthy (key : option str) : bool :=
  match key with
  | Some (_ :: _) => true
  | _ => false
  end.

(** [initialize_processor()]: the boxes it shows and what it returns. *)
Definition initialize_processor : list ui_call * option Processor :=
  match (if truthy getenv then Return getenv else secrets_get) with
  | Raise e =>
    ([St_error (lit "Error initializing processor: " ++ exc_str e)], None)
  | Return api_key =>
    match api_key with
    | Some (c :: key) =>
      match new_processor (c :: key) with
      | Return processor => ([], Some processor)
      | Raise e =>
        ([St_error (lit "Error initializing processor: " ++ exc_str e)],
         None)
      end
    | _ =>
      ([St_error
          (lit "MistralAI API key not found. Please set MISTRAL_API_KEY in environment or Streamlit secrets.")],
       None)
    end
  end.
End Startup.

Section Buttons.
Variable W : World.
(** What [lower()] makes of a character outside ASCII (one or more
    characters; it may depend on where the character stands in the
    string). *)
Variable unicode_lower : str -> nat -> N -> str.
Local Open Scope py_scope.

Fixpoint lower_from (whole : str) (i : nat) (s : str) : str :=
  match s with
  | [] => []
  | c :: s' =>
    (if in_range 65 90 c then [(c + 32)%N]
     else if (c <? 128)%N then [c]
          else unicode_lower whole i c)
      ++ lower_from whole (S i) s'
  end.

(** [s.lower()]: an ASCII capital becomes its small letter, the other ASCII
    characters stay. *)
Definition lower (s : str) : str := lower_from s 0 s.

(** The body of the "Process Stories" button. *)
Definition process_stories (uploaded_files : list UploadedFile)
  : Py W (list ui_call) :=
  try_except
    (message <- StoryProcessor.compute_embeddings W uploaded_files ;;
     if occurs (lit "successfully") (lower message)
     then ret [St_success message]
     else ret [St_error message])
    (fun e => ret [St_error (lit "Error processing stories: " ++ exc_str e)]).

(** The body of the "Clear All Data" button. *)
Definition clear_all_data : Py W (list ui_call) :=
  try_except
    (cleared <- StoryProcessor.clean_up W ;;
     if cleared : bool
     then ret [St_success (lit "All data cleared successfully")]
     else ret [St_error (lit "Error clearing data")])
    (fun e => ret [St_error (lit "Error during cleanup: " ++ exc_str e)]).
End Buttons.

End App.

Arguments App.initialize_processor {Processor} getenv secrets_get new_processor.

(** The text of a [str_or_document]. *)
Definition text_of (doc : str_or_document) : str :=
  match doc with
  | Text text => text
  | Doc d => page_content d
  end.

(** A process started on the disk another one left. *)
Definition restarted {W : World} (st : State W) : State W :=
  {| db := None; disk := disk st; trace := [] |}.

(** What [save_local] writes at [db_path] is a directory: it is there
    afterwards, and [os.remove], which removes files, raises on it. *)
Definition saves_a_directory (W : World) : Prop :=
  forall index d d',
    save_local W index d = (Return tt, d') ->
    os_path_exists W d' = true /\ exists e, os_remove W d' = Raise e.

(** ** Reading the chunks of a text

    The runs of units the merge loop closes, one after the other. *)

(** The length of a run once joined by the separator. *)
Definition joined_len (ts : CharacterTextSplitter.t) (run : list str) : Z :=
  len (join (CharacterTextSplitter.separator ts) run).

(** A run is within [chunk_size], or it is a single unit longer than
    that. *)
Definition run_within (ts : CharacterTextSplitter.t) (run : list str) : Prop :=
  (joined_len ts run <= CharacterTextSplitter.chunk_size ts)%Z
  \/ exists u, run = [u]
               /\ (CharacterTextSplitter.chunk_size ts < len u)%Z.

(** The overlap of a run that starts with the unit [next]: [carried] is
    the end of the run before, in whole units; it is empty, or no longer
    than [chunk_overlap] and short enough for [next] to fit after it; and
    it is the longest such end: with the unit before it, dropped last, it
    would exceed [chunk_overlap] or leave no room for [next]. *)
Definition carried_from (ts : CharacterTextSplitter.t)
           (prev : list str) (next : str) (carried : list str) : Prop :=
  exists dropped,
    prev = dropped ++ carried
    /\ (carried = []
        \/ ((joined_len ts carried <= CharacterTextSplitter.chunk_overlap ts)%Z
            /\ (joined_len ts carried
                + len (CharacterTextSplitter.separator ts) + len next
                <= CharacterTextSplitter.chunk_size ts)%Z))
    /\ (dropped = []
        \/ exists front u,
            dropped = front ++ [u]
            /\ ((CharacterTextSplitter.chunk_overlap ts
                 < joined_len ts (u :: carried))%Z
                \/ (CharacterTextSplitter.chunk_size ts
                    < joined_len ts (u :: carried)
                      + len (CharacterTextSplitter.separator ts)
                      + len next)%Z)).

(** How a run starts: with the overlap for its first new unit; the run of
    a text without units is empty. *)
Definition run_start (ts : CharacterTextSplitter.t)
           (prev fresh carried : list str) : Prop :=
  match fresh with
  | [] => prev = [] /\ carried = []
  | next :: _ => carried_from ts prev next carried
  end.

(** The chunk a run gives: none when nothing is left of it. *)
Definition chunk_of_run (ts : CharacterTextSplitter.t) (run : list str)
  : list str :=
  match CharacterTextSplitter.join_docs ts run with
  | Some chunk => [chunk]
  | None => []
  end.

(** [packed ts prev units runs]: after the run [prev], the units [units]
    are packed into the runs [runs].  Every run starts with what is carried
    from the run before and goes on with the next units of the text, at
    least one; it is within the size or a single oversized unit; and it ends
    where the next unit would not fit. *)
Inductive packed (ts : CharacterTextSplitter.t)
  : list str -> list str -> list (list str) -> Prop :=
| packed_last (prev carried fresh : list str) :
    run_start ts prev fresh carried ->
    run_within ts (carried ++ fresh) ->
    packed ts prev fresh [carried ++ fresh]
| packed_next (prev carried fresh : list str) (next : str)
              (rest : list str) (runs : list (list str)) :
    run_start ts prev fresh carried ->
    fresh <> [] ->
    run_within ts (carried ++ fresh) ->
    (CharacterTextSplitter.chunk_size ts
     < joined_len ts (carried ++ fresh)
       + len (CharacterTextSplitter.separator ts) + len next)%Z ->
    packed ts (carried ++ fresh) (next :: rest) runs ->
    packed ts prev (fresh ++ next :: rest) ((carried ++ fresh) :: runs).

(** The chunks of a document, with its metadata. *)
Definition chunks_of_document (ts : CharacterTextSplitter.t) (doc : Document)
  : list Document :=
  match CharacterTextSplitter.split_text ts (page_content doc) with
  | Return chunks =>
    map (fun chunk => {| page_content := chunk; metadata := metadata doc |})
        chunks
  | Raise _ => []
  end.

(** * Properties *)

(** Unfolds the monad so that a method body becomes a function of the
    state. *)
Ltac run_py :=
  cbv beta iota zeta delta
      [bind ret raise try_except try_except_class lift log print get_db
       set_db get_disk set_disk raise_if path_exists remove
       FAISS_from_documents FAISS_save_local FAISS_load_local
       FAISS_similarity_search RetrievalQA_run falsy negb];
  cbn [db disk trace fst snd exc_str exc_type].

(** ** The batch call to the embedding provider *)

Lemma embed_documents_length (W : World) (texts : list str)
      (vs : list (vector W)) :
  embed_documents W texts = Return vs -> length vs = length texts.
Proof.
  revert vs; induction texts as [|text rest IH]; simpl; intros vs H.
  - inversion H; reflexivity.
  - destruct (embed W text) as [v|e]; [|discriminate].
    destruct (embed_documents W rest) as [vs'|e]; [|discriminate].
    inversion H; subst; simpl; f_equal; apply IH; reflexivity.
Qed.

Lemma combine_complete {A B : Type} (xs : list A) (ys : list B) :
  length ys = length xs -> map fst (combine xs ys) = xs.
Proof.
  revert ys; induction xs as [|x xs IH]; intros [|y ys] H; simpl in *;
    try discriminate; try reflexivity.
  f_equal; apply IH; congruence.
Qed.

(** ** [VectorDB.create_vector_db] *)

(** The method never raises: whatever the libraries do, it returns a
    [bool]. *)
Lemma create_vector_db_returns (W : World)
      (documents : list str_or_document) (st : State W) :
  exists b : bool, fst (VectorDB.create_vector_db W documents st) = Return b.
Proof.
  unfold VectorDB.create_vector_db, VectorDB.save_vector_db; run_py.
  destruct documents as [|d ds]; run_py; [eexists; reflexivity|].
  destruct (embed_documents W _) as [vs|e]; run_py; [|eexists; reflexivity].
  destruct (save_local W _ _) as [[u|e] d']; run_py; eexists; reflexivity.
Qed.

(** C6: the build is all-or-nothing.  On an empty list, and when the
    embedding provider fails on any chunk, [create_vector_db] returns
    [False] and leaves the index in memory and the disk as they were; in
    every case the index in memory afterwards is the one from before the
    call or the complete new one, with one entry per document, in order. *)
Theorem create_vector_db_all_or_nothing (W : World)
        (documents : list str_or_document) (st : State W) :
  let docs := VectorDB._ensure_documents documents in
  let out := VectorDB.create_vector_db W documents st in
  (documents = [] ->
   fst out = Return false /\ db (snd out) = db st /\ disk (snd out) = disk st)
  /\ (forall e, embed_documents W (map page_content docs) = Raise e ->
      fst out = Return false
      /\ db (snd out) = db st /\ disk (snd out) = disk st)
  /\ (db (snd out) = db st
      \/ exists vs, embed_documents W (map page_content docs) = Return vs
                    /\ db (snd out) = Some (combine docs vs)
                    /\ map fst (combine docs vs) = docs).
Proof.
  unfold VectorDB.create_vector_db, VectorDB.save_vector_db; run_py.
  destruct documents as [|d ds]; run_py.
  - repeat split; try reflexivity. left; reflexivity.
  - destruct (embed_documents W _) as [vs|e0] eqn:Hemb; run_py.
    + repeat split; try discriminate.
      right; exists vs. split; [reflexivity|].
      split.
      * destruct (save_local W _ _) as [[u|e] d']; reflexivity.
      * apply combine_complete.
        rewrite (embed_documents_length _ _ _ Hemb).
        rewrite !length_map; reflexivity.
    + repeat split; try discriminate; try reflexivity.
      left; reflexivity.
Qed.

(** C6 at work: with the provider down, building from the one-chunk story
    returns [False] and the index that was in memory is still there,
    whole. *)
Lemma create_vector_db_all_or_nothing_witness :
  let st := Sim.loaded Sim.offline Sim.tale_index Sim.Absent in
  let out := VectorDB.create_vector_db (Sim.world Sim.offline)
                                       [Text (lit "A new story.")] st in
  fst out = Return false
  /\ db (snd out) = Some Sim.tale_index /\ disk (snd out) = Sim.Absent.
Proof.
  exact (proj1 (proj2 (create_vector_db_all_or_nothing
                         (Sim.world Sim.offline)
                         [Text (lit "A new story.")]
                         (Sim.loaded Sim.offline Sim.tale_index Sim.Absent)))
               Sim.provider_down eq_refl).
Defined.

(** C10: [create_vector_db] returns [True] exactly when the list is not
    empty, the build succeeds and the save succeeds; when the build succeeds
    and the save fails it returns [False] with the new index already in
    [db]. *)
Theorem create_vector_db_true_iff (W : World)
        (documents : list str_or_document) (st : State W) :
  let docs := VectorDB._ensure_documents documents in
  let out := VectorDB.create_vector_db W documents st in
  (fst out = Return true <->
   documents <> []
   /\ exists vs, embed_documents W (map page_content docs) = Return vs
                 /\ fst (save_local W (combine docs vs) (disk st)) = Return tt)
  /\ (forall vs e,
         documents <> [] ->
         embed_documents W (map page_content docs) = Return vs ->
         fst (save_local W (combine docs vs) (disk st)) = Raise e ->
         fst out = Return false /\ db (snd out) = Some (combine docs vs)).
Proof.
  unfold VectorDB.create_vector_db, VectorDB.save_vector_db; run_py.
  destruct documents as [|d ds]; run_py.
  - split.
    + split; [discriminate|]. intros [H _]; congruence.
    + intros vs e H; congruence.
  - destruct (embed_documents W _) as [vs|e0] eqn:Hemb; run_py.
    + destruct (save_local W _ _) as [[u|e] d'] eqn:Hsave; run_py.
      * split.
        -- split; [|reflexivity]. intros _. split; [discriminate|].
           exists vs. split; [reflexivity|].
           rewrite Hsave; destruct u; reflexivity.
        -- intros vs' e' _ Hvs. inversion Hvs; subst vs'.
           rewrite Hsave; discriminate.
      * split.
        -- split; [discriminate|].
           intros [_ [vs' [Hvs H]]]. inversion Hvs; subst vs'.
           rewrite Hsave in H; discriminate.
        -- intros vs' e' _ Hvs _. inversion Hvs; subst vs'.
           split; reflexivity.
    + split.
      * split; [discriminate|]. intros [_ [vs [H _]]]; discriminate.
      * intros vs e _ H; discriminate.
Qed.

(** C10 at work: on a write-protected disk the build of the one-chunk story
    succeeds and the save fails: the call returns [False], and [db], empty
    before, now holds the new index. *)
Lemma create_vector_db_true_iff_witness :
  let st := Sim.fresh Sim.read_only Sim.Absent in
  let out := VectorDB.create_vector_db (Sim.world Sim.read_only)
                                       [Doc Sim.tale] st in
  db st = None
  /\ fst out = Return false /\ db (snd out) = Some Sim.tale_index.
Proof.
  split; [reflexivity|].
  refine (proj2 (create_vector_db_true_iff
                   (Sim.world Sim.read_only) [Doc Sim.tale]
                   (Sim.fresh Sim.read_only Sim.Absent))
                [50%Z] Sim.permission_denied _ eq_refl eq_refl).
  discriminate.
Defined.

(** ** [VectorDB.clear_vector_db] and [VectorDB.similarity_search] *)

(** The three ways through [clear_vector_db]. *)
Lemma clear_vector_db_run (W : World) (st : State W) :
  VectorDB.clear_vector_db W st =
  if os_path_exists W (disk st)
  then match os_remove W (disk st) with
       | Return d' =>
         (Return true,
          {| db := None; disk := d'; trace := trace st ++ [OsRemove] |})
       | Raise e =>
         (Return false,
          {| db := db st; disk := disk st;
             trace := (trace st ++ [OsRemove])
                        ++ [Print (lit "Error clearing vector database: "
                                       ++ exc_str e)] |})
       end
  else (Return true, {| db := None; disk := disk st; trace := trace st |}).
Proof.
  unfold VectorDB.clear_vector_db; run_py.
  destruct (os_path_exists W (disk st)); run_py; [|reflexivity].
  destruct (os_remove W (disk st)) as [d'|e]; reflexivity.
Qed.

Lemma similarity_search_run (W : World) (query : str) (k : Z) (st : State W) :
  VectorDB.similarity_search W query k st =
  match db st with
  | None => (Raise VectorDB.NotInitialized, st)
  | Some index =>
    (index_search W index query k,
     with_trace st [IndexSearch query k])
  end.
Proof.
  unfold VectorDB.similarity_search, with_trace; run_py.
  destruct st as [[index|] dk tr]; reflexivity.
Qed.

(** A search fails with [NotInitialized] exactly when no index is in
    memory (the library's own search never raises that error), and a search
    right after a [clear_vector_db] that returned [True] fails with
    [NotInitialized]. *)
Lemma similarity_search_not_initialized (W : World)
        (Hlib : forall index q n,
            index_search W index q n <> Raise VectorDB.NotInitialized)
        (query : str) (k : Z) (st : State W) :
  (fst (VectorDB.similarity_search W query k st)
   = Raise VectorDB.NotInitialized <-> db st = None)
  /\ (fst (VectorDB.clear_vector_db W st) = Return true ->
      fst (VectorDB.similarity_search W query k
             (snd (VectorDB.clear_vector_db W st)))
      = Raise VectorDB.NotInitialized).
Proof.
  split.
  - rewrite similarity_search_run.
    destruct (db st) as [index|]; cbn [fst].
    + split; [|discriminate]. intros H; elim (Hlib _ _ _ H).
    + split; reflexivity.
  - rewrite clear_vector_db_run, similarity_search_run.
    destruct (os_path_exists W (disk st)).
    + destruct (os_remove W (disk st)); cbn [fst snd db];
        [reflexivity | discriminate].
    + reflexivity.
Qed.

(** On a file system where a removed path no longer exists,
    [clear_vector_db] either returns [True], with the file gone and [db]
    reset, or, when [os.remove] raises, returns [False] and leaves both;
    on an empty index it returns [True] and changes nothing; a second call
    in a row gives the result and the state of the first; [clean_up] is
    that call. *)
Lemma clear_vector_db_idempotent (W : World)
        (Hrm : forall d d', os_remove W d = Return d' ->
                            os_path_exists W d' = false)
        (st : State W) :
  let once := VectorDB.clear_vector_db W st in
  let twice := VectorDB.clear_vector_db W (snd once) in
  (fst once = Return true
   /\ db (snd once) = None /\ os_path_exists W (disk (snd once)) = false
   \/ fst once = Return false
      /\ db (snd once) = db st /\ disk (snd once) = disk st
      /\ os_path_exists W (disk st) = true
      /\ exists e, os_remove W (disk st) = Raise e)
  /\ (os_path_exists W (disk st) = false -> db st = None ->
      once = (Return true, st))
  /\ (fst twice = fst once
      /\ db (snd twice) = db (snd once) /\ disk (snd twice) = disk (snd once))
  /\ StoryProcessor.clean_up W st = once.
Proof.
  assert (Hclean : StoryProcessor.clean_up W st = VectorDB.clear_vector_db W st)
    by reflexivity.
  cbv zeta. rewrite Hclean. rewrite !clear_vector_db_run.
  destruct (os_path_exists W (disk st)) eqn:Hex.
  - destruct (os_remove W (disk st)) as [d'|e] eqn:Hr; cbn [fst snd db disk].
    + rewrite (Hrm _ _ Hr).
      split; [left; repeat split|].
      split; [discriminate|].
      split; [repeat split | reflexivity].
    + rewrite Hex, Hr.
      split; [right; repeat split; exists e; reflexivity|].
      split; [discriminate|].
      split; [repeat split | reflexivity].
  - cbn [fst snd db disk]. rewrite Hex.
    split; [left; repeat split|].
    split.
    + intros _ Hdb. destruct st as [d0 dk tr]; cbn in *; subst; reflexivity.
    + split; [repeat split | reflexivity].
Qed.


(** ** [VectorDB.load_vector_db] *)

Lemma load_vector_db_run (W : World) (st : State W) :
  VectorDB.load_vector_db W st =
  if os_path_exists W (disk st)
  then match load_local W (disk st) with
       | Return index =>
         (Return true,
          {| db := Some index; disk := disk st;
             trace := (trace st ++ [LoadLocal])
                        ++ [Print (lit "Successfully loaded vector database from "
                                       ++ VectorDB.db_path)] |})
       | Raise e =>
         (Return false,
          with_trace st
            ([LoadLocal]
               ++ [Print (lit "Error loading vector database: "
                              ++ exc_str e)]))
       end
  else (Return false,
        with_trace st
          [Print (lit "Error loading vector database: "
                      ++ lit "No vector database found at "
                      ++ VectorDB.db_path)]).
Proof.
  unfold VectorDB.load_vector_db, with_trace; run_py.
  destruct (os_path_exists W (disk st)); run_py; [|reflexivity].
  destruct (load_local W (disk st)) as [index|e]; run_py;
    rewrite <- ?app_assoc; reflexivity.
Qed.

(** The load fails exactly when nothing is at [db_path] or the library
    cannot read what is there. *)
Lemma load_vector_db_false_iff (W : World) (st : State W) :
  fst (VectorDB.load_vector_db W st) = Return false <->
  os_path_exists W (disk st) = false
  \/ exists e, load_local W (disk st) = Raise e.
Proof.
  rewrite load_vector_db_run.
  destruct (os_path_exists W (disk st)).
  - destruct (load_local W (disk st)) as [index|e]; cbn [fst]; split.
    + discriminate.
    + intros [H|[e H]]; discriminate.
    + intros _; right; exists e; reflexivity.
    + reflexivity.
  - cbn [fst]; split; [left|]; reflexivity.
Qed.

(** ** [StoryProcessor.get_character_info] *)

Lemma get_character_info_loaded (W : World) (character_name : str)
      (st : State W) (index : FAISS (vector W)) :
  db st = Some index ->
  StoryProcessor.get_character_info W character_name st =
  (Return (answer_from W index character_name),
   with_trace st [ChainRun character_name]).
Proof.
  destruct st as [d0 dk tr]; cbn [db]; intros ->.
  unfold StoryProcessor.get_character_info, answer_from, with_trace; run_py.
  destruct (qa_chain_run W index 4 character_name) as [response|e]; run_py;
    [|reflexivity].
  destruct (json_loads W response) as [result|e]; run_py; [reflexivity|].
  destruct (is_JSONDecodeError e); reflexivity.
Qed.

Lemma get_character_info_unloaded (W : World) (character_name : str)
      (st : State W) :
  db st = None ->
  StoryProcessor.get_character_info W character_name st =
  match VectorDB.load_vector_db W st with
  | (Return true, st1) =>
    StoryProcessor.get_character_info W character_name st1
  | (_, st1) =>
    (Return (StoryProcessor.error_result
               (lit "Error getting character information: "
                    ++ lit "Failed to load vector database")),
     st1)
  end.
Proof.
  intros Hdb. rewrite load_vector_db_run.
  destruct (os_path_exists W (disk st)) eqn:Hex.
  - destruct (load_local W (disk st)) as [index|e] eqn:Hload.
    + destruct st as [d0 dk tr]; cbn [db disk trace] in *; subst d0.
      unfold StoryProcessor.get_character_info, VectorDB.load_vector_db;
        run_py.
      rewrite Hex; run_py. rewrite Hload; run_py.
      reflexivity.
    + destruct st as [d0 dk tr]; cbn [db disk trace] in *; subst d0.
      unfold StoryProcessor.get_character_info, VectorDB.load_vector_db,
        with_trace; run_py.
      rewrite Hex; run_py. rewrite Hload; run_py.
      rewrite <- ?app_assoc; reflexivity.
  - destruct st as [d0 dk tr]; cbn [db disk trace] in *; subst d0.
    unfold StoryProcessor.get_character_info, VectorDB.load_vector_db,
      with_trace; run_py.
    rewrite Hex; run_py. reflexivity.
Qed.




(** The chain the processor builds never gets to the generation provider:
    it raises what the retriever raised, or its error for the missing
    input. *)
Lemma runs_the_chain_raises (W : World) :
  runs_the_chain W ->
  forall index k query,
    (exists e, index_search W index query k = Raise e
               /\ qa_chain_run W index k query = Raise e)
    \/ ((exists docs, index_search W index query k = Return docs)
        /\ qa_chain_run W index k query = Raise missing_inputs_error).
Proof.
  intros [generate Hrun] index k query. rewrite Hrun. unfold chain_run.
  destruct (index_search W index query k) as [docs|e].
  - right. split; [exists docs; reflexivity|]. reflexivity.
  - left. exists e. split; reflexivity.
Qed.

Lemma missing_inputs_error_text :
  exc_str missing_inputs_error = lit "Missing some input keys: {'character'}".
Proof. reflexivity. Qed.

Lemma sim_runs_the_chain (s : Sim.setup) : runs_the_chain (Sim.world s).
Proof. exists (fun _ _ => Sim.completion s). intros; reflexivity. Qed.



(** C2: the code at a failing input.  With the chain the processor builds
    and an index in memory from which the retriever returns documents, a
    query comes back as the error for the chain's missing input
    ["character"]: the generation provider is not asked and nothing is
    parsed. *)
Theorem get_character_info_never_parses (W : World) (Hchain : runs_the_chain W)
        (character_name : str) (st : State W) (index : FAISS (vector W))
        (docs : list Document) :
  db st = Some index ->
  index_search W index character_name 4 = Return docs ->
  StoryProcessor.get_character_info W character_name st
  = (Return (StoryProcessor.error_result
               (lit "Error getting character information: "
                    ++ lit "Missing some input keys: {'character'}")),
     with_trace st [ChainRun character_name]).
Proof.
  intros Hdb Hsearch.
  rewrite (get_character_info_loaded W character_name st index Hdb).
  unfold answer_from.
  destruct (runs_the_chain_raises W Hchain index 4 character_name)
    as [(e & He & _)|(_ & ->)]; [congruence|].
  rewrite missing_inputs_error_text. reflexivity.
Qed.

(** C2 at work: the end-to-end scenario of the specification.  The story
    "Tale" is indexed and the provider would answer with the JSON of a
    Character Info Result for Alice; the query returns the error. *)
Lemma get_character_info_never_parses_witness :
  let s := Sim.answering Sim.alice_text Sim.alice_value in
  let st := Sim.loaded s Sim.tale_index (Sim.Saved Sim.tale_index) in
  Sim.completion s = Return Sim.alice_text
  /\ json_loads (Sim.world s) Sim.alice_text = Return Sim.alice_value
  /\ is_character_info Sim.alice_value = true
  /\ fst (StoryProcessor.get_character_info (Sim.world s) (lit "Alice") st)
     = Return (StoryProcessor.error_result
                 (lit "Error getting character information: "
                      ++ lit "Missing some input keys: {'character'}")).
Proof.
  split; [reflexivity|]. split; [vm_compute; reflexivity|].
  split; [vm_compute; reflexivity|].
  exact (f_equal fst
           (get_character_info_never_parses
              (Sim.world (Sim.answering Sim.alice_text Sim.alice_value))
              (sim_runs_the_chain _) (lit "Alice")
              (Sim.loaded (Sim.answering Sim.alice_text Sim.alice_value)
                          Sim.tale_index (Sim.Saved Sim.tale_index))
              Sim.tale_index [Sim.tale] eq_refl eq_refl)).
Defined.

(** C3: with no index in memory the call goes through [load_vector_db]
    first: the state it ends in is the one the load left, with at most the
    run of the chain added; and when the load fails the call returns the
    error result for it in the very state the load left, so that nothing
    was retrieved or generated. *)
Theorem get_character_info_index_unavailable (W : World)
        (character_name : str) (st : State W) :
  db st = None ->
  let loaded := VectorDB.load_vector_db W st in
  let out := StoryProcessor.get_character_info W character_name st in
  (snd out = snd loaded
   \/ snd out = with_trace (snd loaded) [ChainRun character_name])
  /\ (fst loaded = Return false ->
      fst out = Return (StoryProcessor.error_result
                          (lit "Error getting character information: "
                               ++ lit "Failed to load vector database"))
      /\ snd out = snd loaded
      /\ exists evs, trace (snd out) = trace st ++ evs
                     /\ forall ev, In ev evs ->
                                   ev = LoadLocal \/ exists line, ev = Print line).
Proof.
  intros Hdb; cbv zeta.
  rewrite (get_character_info_unloaded W character_name st Hdb).
  rewrite load_vector_db_run.
  destruct (os_path_exists W (disk st)).
  - destruct (load_local W (disk st)) as [index|e].
    + erewrite get_character_info_loaded by reflexivity.
      cbn [fst snd]. split; [right; reflexivity | discriminate].
    + cbn [fst snd]. split; [left; reflexivity|].
      intros _. repeat split.
      eexists; split; [reflexivity|].
      intros ev [<-|[<-|[]]]; [left; reflexivity | right; eexists; reflexivity].
  - cbn [fst snd]. split; [left; reflexivity|].
    intros _. repeat split.
    eexists; split; [reflexivity|].
    intros ev [<-|[]]; right; eexists; reflexivity.
Qed.

(** C3 at work: a fresh process with nothing on disk. *)
Lemma get_character_info_index_unavailable_witness :
  let W := Sim.world Sim.healthy in
  let st := Sim.fresh Sim.healthy Sim.Absent in
  fst (StoryProcessor.get_character_info W (lit "Alice") st)
  = Return (StoryProcessor.error_result
              (lit "Error getting character information: "
                   ++ lit "Failed to load vector database")).
Proof.
  exact (proj1 (proj2 (get_character_info_index_unavailable
                         (Sim.world Sim.healthy) (lit "Alice")
                         (Sim.fresh Sim.healthy Sim.Absent) eq_refl)
                      eq_refl)).
Defined.

(** ** The text splitter *)

Lemma len_nonneg {A : Type} (l : list A) : (0 <= len l)%Z.
Proof. unfold len; lia. Qed.

Lemma len_app {A : Type} (l1 l2 : list A) :
  len (l1 ++ l2) = (len l1 + len l2)%Z.
Proof. unfold len; rewrite length_app; lia. Qed.

Lemma lstrip_length (s : str) : (length (lstrip s) <= length s)%nat.
Proof.
  induction s as [|c s IH]; simpl; [lia|].
  destruct (isspace c); simpl; lia.
Qed.

Lemma strip_len (s : str) : (len (strip s) <= len s)%Z.
Proof.
  unfold strip, len. rewrite length_rev.
  pose proof (lstrip_length (rev (lstrip s))) as H1.
  pose proof (lstrip_length s) as H2.
  rewrite length_rev in H1. lia.
Qed.

Lemma falsy_nil {A : Type} (l : list A) : falsy l = true <-> l = [].
Proof. destruct l; simpl; split; congruence. Qed.

Lemma falsy_len {A : Type} (l : list A) : falsy l = false <-> (0 < len l)%Z.
Proof. destruct l; unfold len; simpl; split; intros; try congruence; lia. Qed.

Section SplitterFacts.
Import CharacterTextSplitter.
Variable ts : t.
Hypothesis overlap_nonneg : (0 <= chunk_overlap ts)%Z.
Hypothesis size_nonneg : (0 <= chunk_size ts)%Z.

Lemma finish_len (text : str) : (len (finish ts text) <= len text)%Z.
Proof.
  unfold finish; destruct (strip_whitespace ts); [apply strip_len | lia].
Qed.

Lemma join_cons_len (u : str) (rest : list str) :
  len (join (separator ts) (u :: rest))
  = (len u + if falsy rest then 0 else len (separator ts) + len (join (separator ts) rest))%Z.
Proof.
  destruct rest as [|v rest]; cbn [join falsy]; [lia|].
  rewrite !len_app; lia.
Qed.

Lemma join_snoc_len (cd : list str) (d : str) :
  len (join (separator ts) (cd ++ [d]))
  = (len (join (separator ts) cd) + len d + if falsy cd then 0 else len (separator ts))%Z.
Proof.
  induction cd as [|u cd IH].
  - cbn [app join falsy]; unfold len; cbn [length]; lia.
  - change ((u :: cd) ++ [d]) with (u :: (cd ++ [d])).
    rewrite !join_cons_len, IH.
    destruct cd as [|v cd]; cbn [falsy app join];
      change (len (@nil N)) with 0%Z; lia.
Qed.

Lemma sep_after_0 (cd : list str) :
  sep_after ts 0 cd = if falsy cd then 0%Z else len (separator ts).
Proof.
  unfold sep_after. destruct cd; unfold len; cbn [falsy length];
    [reflexivity|].
  destruct (Z.ltb_spec (Z.of_nat 0) (Z.of_nat (S (length cd))));
    [reflexivity | lia].
Qed.

Lemma sep_after_1_cons (u : str) (rest : list str) :
  sep_after ts 1 (u :: rest) = if falsy rest then 0%Z else len (separator ts).
Proof.
  unfold sep_after. destruct rest; unfold len; cbn [falsy length].
  - reflexivity.
  - destruct (Z.ltb_spec (Z.of_nat 1) (Z.of_nat (S (S (length rest)))));
      [reflexivity | lia].
Qed.

Lemma sep_after_1_snoc (cd : list str) (d : str) :
  sep_after ts 1 (cd ++ [d]) = if falsy cd then 0%Z else len (separator ts).
Proof.
  destruct cd as [|u cd]; [reflexivity|].
  change ((u :: cd) ++ [d]) with (u :: (cd ++ [d])).
  rewrite sep_after_1_cons. destruct cd; reflexivity.
Qed.

Lemma open_chunk_empty (cd : list str) (total : Z) :
  open_chunk ts cd total -> (total <= 0)%Z -> cd = [].
Proof.
  intros [Ht Hne] Hle. destruct cd as [|u cd]; [reflexivity|].
  exfalso. rewrite join_cons_len in Ht.
  inversion Hne as [|? ? Hu _]; subst.
  apply falsy_len in Hu.
  pose proof (len_nonneg (separator ts)). pose proof (len_nonneg (join (separator ts) cd)).
  destruct (falsy cd); lia.
Qed.

(** Dropping the leading units never runs off the list, and stops with
    at most the overlap, and with room for the next unit unless nothing is
    left. *)
Lemma pop_front_spec (next_len : Z) (cd : list str) (total : Z) :
  open_chunk ts cd total ->
  exists cd' total',
    pop_front ts next_len cd total = Return (cd', total')
    /\ open_chunk ts cd' total'
    /\ incl cd' cd
    /\ ((total' + next_len + sep_after ts 0 cd' <= chunk_size ts)%Z
        \/ cd' = []).
Proof.
  revert total; induction cd as [|u cd IH]; intros total Hopen.
  - destruct Hopen as [Ht _]; cbn in Ht; subst total.
    exists [], 0%Z. cbn [pop_front].
    destruct (Z.ltb_spec (chunk_overlap ts) 0); [lia|].
    rewrite Z.ltb_irrefl, andb_false_r. cbn [orb].
    repeat split; [constructor | apply incl_refl | right; reflexivity].
  - cbn [pop_front].
    destruct ((chunk_overlap ts <? total)%Z
              || (chunk_size ts <? total + next_len + sep_after ts 0 (u :: cd))%Z
                 && (0 <? total)%Z) eqn:Hcond.
    + destruct Hopen as [Ht Hne].
      inversion Hne as [|? ? Hu Hrest]; subst.
      destruct (IH (len (join (separator ts) (u :: cd))
                    - (len u + sep_after ts 1 (u :: cd)))%Z)
        as (cd' & total' & Hrun & Hopen' & Hincl & Hfit).
      { split; [|exact Hrest].
        rewrite join_cons_len, sep_after_1_cons.
        destruct cd; cbn [falsy join];
          [change (len (@nil N)) with 0%Z; lia | lia]. }
      exists cd', total'. repeat split; try assumption.
      * apply Hopen'.
      * apply Hopen'.
      * apply incl_tl; exact Hincl.
    + exists (u :: cd), total.
      repeat split; try apply Hopen; [apply incl_refl|].
      apply orb_false_iff in Hcond; destruct Hcond as [_ Hc].
      apply andb_false_iff in Hc.
      destruct Hc as [Hc|Hc].
      * left. apply Z.ltb_ge in Hc. exact Hc.
      * right. apply Z.ltb_ge in Hc.
        eapply open_chunk_empty; eassumption.
Qed.

(** What is carried forward is the tail of the closed chunk, in whole
    units, and is no longer than the overlap. *)
Lemma pop_front_carries_overlap (next_len : Z) (cd : list str) :
  forall (total : Z) (cd' : list str) (total' : Z),
    pop_front ts next_len cd total = Return (cd', total') ->
    (total' <= chunk_overlap ts)%Z
    /\ exists dropped, cd = dropped ++ cd'.
Proof.
  induction cd as [|u cd IH]; intros total cd' total'; cbn [pop_front];
    destruct (chunk_overlap ts <? total)%Z eqn:Hover; cbn [orb].
  - discriminate.
  - destruct (_ && _); [discriminate|].
    intros H; inversion H; subst. apply Z.ltb_ge in Hover.
    split; [exact Hover | exists []; reflexivity].
  - intros H. destruct (IH _ _ _ H) as (Hle & dropped & ->).
    split; [exact Hle | exists (u :: dropped); reflexivity].
  - destruct (_ && _).
    + intros H. destruct (IH _ _ _ H) as (Hle & dropped & ->).
      split; [exact Hle | exists (u :: dropped); reflexivity].
    + intros H; inversion H; subst. apply Z.ltb_ge in Hover.
      split; [exact Hover | exists []; reflexivity].
Qed.

(** A closed chunk is within the size, or is its single oversized unit. *)
Lemma emit_ok (U docs cd : list str) (total : Z) :
  Forall (chunk_ok ts U) docs ->
  open_chunk ts cd total ->
  incl cd U ->
  (total <= chunk_size ts)%Z
  \/ (exists u, cd = [u] /\ (chunk_size ts < len u)%Z) ->
  Forall (chunk_ok ts U) (emit ts docs cd).
Proof.
  intros Hdocs [Ht _] Hincl Hsize. unfold emit, join_docs.
  fold (finish ts (join (separator ts) cd)).
  destruct (falsy (finish ts (join (separator ts) cd))); [exact Hdocs|].
  apply Forall_app; split; [exact Hdocs|].
  constructor; [|constructor].
  destruct Hsize as [Hle|(u & -> & Hbig)].
  - left. pose proof (finish_len (join (separator ts) cd)). lia.
  - right. exists u. repeat split; [apply Hincl; left; reflexivity | exact Hbig].
Qed.

(** Appending a unit to what the loop kept keeps the chunk well formed. *)
Lemma append_ok (cd : list str) (total : Z) (d : str) :
  open_chunk ts cd total ->
  falsy d = false ->
  (total + len d + sep_after ts 0 cd <= chunk_size ts)%Z \/ cd = [] ->
  let total' := (total + len d + sep_after ts 1 (cd ++ [d]))%Z in
  open_chunk ts (cd ++ [d]) total'
  /\ ((total' <= chunk_size ts)%Z
      \/ exists u, cd ++ [d] = [u] /\ (chunk_size ts < len u)%Z).
Proof.
  intros [Ht Hne] Hd Hfit; cbv zeta. split.
  - split.
    + rewrite join_snoc_len, sep_after_1_snoc, Ht; lia.
    + apply Forall_app; split; [exact Hne | constructor; [exact Hd | constructor]].
  - rewrite sep_after_1_snoc. rewrite sep_after_0 in Hfit.
    destruct Hfit as [Hle | ->].
    + left; exact Hle.
    + cbn [join app falsy] in *. subst total.
      change (len (@nil N)) with 0%Z.
      destruct (Z.le_gt_cases (len d) (chunk_size ts)) as [Hle|Hgt].
      * left; lia.
      * right; exists d; split; [reflexivity | lia].
Qed.

(** The merge loop returns, and every chunk it produces is within the
    size unless it is one oversized unit. *)
Lemma merge_loop_spec (U splits : list str) :
  Forall (fun u => falsy u = false) splits ->
  incl splits U ->
  forall (docs cd : list str) (total : Z),
    incl cd U ->
    open_chunk ts cd total ->
    (total <= chunk_size ts)%Z
    \/ (exists u, cd = [u] /\ (chunk_size ts < len u)%Z) ->
    Forall (chunk_ok ts U) docs ->
    exists docs',
      merge_loop ts splits docs cd total = Return docs'
      /\ Forall (chunk_ok ts U) docs'.
Proof.
  induction splits as [|d rest IH]; intros Hne HU docs cd total Hcd Hopen Hsize Hdocs.
  - exists (emit ts docs cd). split; [reflexivity|].
    eapply emit_ok; eassumption.
  - inversion Hne as [|? ? Hd Hrest]; subst.
    assert (HdU : In d U) by (apply HU; left; reflexivity).
    assert (HrU : incl rest U)
      by (intros x Hx; apply HU; right; exact Hx).
    cbn [merge_loop].
    destruct ((chunk_size ts <? total + len d + sep_after ts 0 cd)%Z
              && negb (falsy cd)) eqn:Hcond.
    + destruct (pop_front_spec (len d) cd total Hopen)
        as (cd' & total' & Hrun & Hopen' & Hincl & Hfit).
      rewrite Hrun.
      destruct (append_ok cd' total' d Hopen' Hd Hfit) as [Hopen2 Hsize2].
      apply IH; try assumption.
      * apply incl_app; [intros x Hx; apply Hcd, Hincl, Hx|].
        intros x [<-|[]]; exact HdU.
      * eapply emit_ok; eassumption.
    + assert (Hfit : (total + len d + sep_after ts 0 cd <= chunk_size ts)%Z
                     \/ cd = []).
      { apply andb_false_iff in Hcond. destruct Hcond as [Hc|Hc].
        - left. apply Z.ltb_ge in Hc; exact Hc.
        - right. apply negb_false_iff in Hc. apply falsy_nil; exact Hc. }
      destruct (append_ok cd total d Hopen Hd Hfit) as [Hopen2 Hsize2].
      apply IH; try assumption.
      apply incl_app; [exact Hcd|].
      intros x [<-|[]]; exact HdU.
Qed.

Lemma units_nonempty (text : str) :
  Forall (fun u => falsy u = false) (units ts text).
Proof.
  unfold units. apply Forall_forall. intros u Hu.
  apply filter_In in Hu. destruct Hu as [_ Hu].
  apply negb_true_iff in Hu; exact Hu.
Qed.

Lemma split_text_spec (text : str) :
  exists chunks,
    split_text ts text = Return chunks
    /\ Forall (chunk_ok ts (units ts text)) chunks.
Proof.
  unfold split_text, merge_splits.
  apply merge_loop_spec.
  - apply units_nonempty.
  - apply incl_refl.
  - intros x [].
  - split; [reflexivity | constructor].
  - left; exact size_nonneg.
  - constructor.
Qed.

Lemma split_documents_spec (documents : list Document) :
  exists texts,
    split_documents ts documents = Return texts
    /\ forall chunk, In chunk texts ->
         exists doc, In doc documents
                     /\ metadata chunk = metadata doc
                     /\ chunk_ok ts (units ts (page_content doc))
                                 (page_content chunk).
Proof.
  induction documents as [|doc rest (more & Hmore & IH)].
  - exists []. split; [reflexivity | intros chunk []].
  - destruct (split_text_spec (page_content doc)) as (chunks & Hrun & Hok).
    cbn [split_documents]. rewrite Hrun, Hmore.
    eexists; split; [reflexivity|].
    intros chunk Hin. apply in_app_or in Hin. destruct Hin as [Hin|Hin].
    + apply in_map_iff in Hin. destruct Hin as (text & <- & Hin).
      exists doc. repeat split; [left; reflexivity|].
      cbn [page_content]. rewrite Forall_forall in Hok. apply Hok, Hin.
    + destruct (IH chunk Hin) as (doc' & Hdoc & Hmeta & Hc).
      exists doc'. repeat split; [right; exact Hdoc | exact Hmeta | exact Hc].
Qed.
End SplitterFacts.

(** Run on a short story, the splitter of the build path gives the story
    back as its one chunk, title kept. *)
Lemma split_short_document :
  CharacterTextSplitter.split_documents StoryProcessor.text_splitter [Sim.tale]
  = Return [Sim.tale].
Proof. vm_compute; reflexivity. Qed.

(** The length of the chunks of the build path: on every list of
    documents the splitter returns, and each chunk has at most 1000
    characters unless it is a single newline-delimited unit of its document
    that is longer than that, stripped of surrounding whitespace; the chunk
    carries the metadata of its document. *)
Lemma build_path_chunks_bounded (documents : list Document) :
  let ts := StoryProcessor.text_splitter in
  (CharacterTextSplitter.chunk_size ts = 1000%Z
   /\ CharacterTextSplitter.chunk_overlap ts = 200%Z
   /\ CharacterTextSplitter.separator ts = [10%N])
  /\ exists texts,
      CharacterTextSplitter.split_documents ts documents = Return texts
      /\ forall chunk, In chunk texts ->
           (len (page_content chunk) <= 1000)%Z
           \/ exists doc u,
               In doc documents
               /\ In u (CharacterTextSplitter.units ts (page_content doc))
               /\ (1000 < len u)%Z
               /\ page_content chunk = strip u
               /\ metadata chunk = metadata doc.
Proof.
  cbv zeta. split; [repeat split|].
  destruct (split_documents_spec StoryProcessor.text_splitter
              ltac:(cbn; lia) ltac:(cbn; lia) documents)
    as (texts & Hrun & Hok).
  exists texts; split; [exact Hrun|].
  intros chunk Hin.
  destruct (Hok chunk Hin) as (doc & Hdoc & Hmeta & [Hle|(u & Hu & Hbig & Hc)]).
  - left; exact Hle.
  - right; exists doc, u. repeat split; assumption.
Qed.

(** ** [StoryProcessor.compute_embeddings] *)

Lemma with_trace_nil (W : World) (st : State W) : with_trace st [] = st.
Proof. destruct st; unfold with_trace; cbn; rewrite app_nil_r; reflexivity. Qed.

Lemma with_trace_app (W : World) (st : State W) (evs1 evs2 : list event) :
  with_trace (with_trace st evs1) evs2 = with_trace st (evs1 ++ evs2).
Proof. unfold with_trace; cbn; rewrite app_assoc; reflexivity. Qed.

(** The loop over the files: the documents of the files that decode are
    appended in order, and one warning is printed per file that does not. *)
Lemma read_files_run (W : World) (files : list UploadedFile) :
  forall (documents : list Document) (st : State W),
    StoryProcessor.read_files W files documents st =
    (Return (documents ++ decoded_documents files),
     with_trace st (decode_warnings W files)).
Proof.
  induction files as [|file rest IH]; intros documents st.
  - cbn. rewrite app_nil_r, with_trace_nil. reflexivity.
  - cbn [StoryProcessor.read_files decoded_documents decode_warnings flat_map].
    unfold decode_utf8. run_py.
    destruct (utf8_code_points (read file)) as [content|]; run_py.
    + rewrite IH. rewrite <- app_assoc. reflexivity.
    + rewrite IH.
      change {| db := db st; disk := disk st;
                trace := trace st ++ [Print (lit "Error processing file "
                                                 ++ name file ++ lit ": "
                                                 ++ codec_error W (read file))] |}
        with (with_trace st [Print (lit "Error processing file "
                                        ++ name file ++ lit ": "
                                        ++ codec_error W (read file))]).
      rewrite with_trace_app. reflexivity.
Qed.

(** C7, as stated, fails: an empty file decodes, so a file survives
    decoding, and yet the build fails, as no chunk comes out of it. *)
Lemma compute_embeddings_fails_on_empty_story :
  let files := [{| name := lit "empty.txt"; read := [] |}] in
  let st := Sim.fresh Sim.healthy Sim.Absent in
  decoded_documents files
  = [{| page_content := []; metadata := [(lit "title", lit "empty")] |}]
  /\ fst (StoryProcessor.compute_embeddings (Sim.world Sim.healthy) files st)
     = Return (lit "Error storing embeddings").
Proof. split; vm_compute; reflexivity. Qed.

(** C7, amended: a file whose bytes do not decode is skipped with a printed
    warning and the rest go on.  An empty list of files is reported as
    "No files provided" and a list of which no file decodes as "No valid
    documents found in provided files", the index untouched in both cases;
    as soon as one file decodes, the documents of the files that decode are
    chunked and handed to [create_vector_db], whose outcome decides the
    message. *)
Theorem compute_embeddings_skips_undecodable (W : World)
        (files : list UploadedFile) (st : State W) :
  let documents := decoded_documents files in
  let st1 := with_trace st (decode_warnings W files) in
  (files = [] ->
   StoryProcessor.compute_embeddings W files st
   = (Return (lit "Error computing embeddings: " ++ lit "No files provided"),
      st))
  /\ (files <> [] -> documents = [] ->
      StoryProcessor.compute_embeddings W files st
      = (Return (lit "Error computing embeddings: "
                     ++ lit "No valid documents found in provided files"),
         st1))
  /\ (documents <> [] ->
      exists texts (success : bool) st2,
        CharacterTextSplitter.split_documents StoryProcessor.text_splitter
                                              documents = Return texts
        /\ VectorDB.create_vector_db W (map Doc texts) st1
           = (Return success, st2)
        /\ StoryProcessor.compute_embeddings W files st
           = (Return (if success
                      then lit "Embeddings computed and stored successfully"
                      else lit "Error storing embeddings"),
              st2)).
Proof.
  cbv zeta. split; [|split].
  - intros ->. reflexivity.
  - intros Hfiles Hdocs.
    unfold StoryProcessor.compute_embeddings; run_py.
    destruct files as [|file rest]; [congruence|]. run_py.
    rewrite read_files_run. cbn [app]. rewrite Hdocs. reflexivity.
  - intros Hdocs.
    destruct (split_documents_spec StoryProcessor.text_splitter
                ltac:(cbn; lia) ltac:(cbn; lia) (decoded_documents files))
      as (texts & Hsplit & _).
    destruct (create_vector_db_returns W (map Doc texts)
                (with_trace st (decode_warnings W files))) as [success Hret].
    destruct (VectorDB.create_vector_db W (map Doc texts)
                (with_trace st (decode_warnings W files)))
      as [outcome st2] eqn:Hcreate.
    cbn [fst] in Hret; subst outcome.
    exists texts, success, st2. split; [exact Hsplit|]. split; [exact Hcreate|].
    unfold StoryProcessor.compute_embeddings; run_py.
    destruct files as [|file rest]; [elim Hdocs; reflexivity|]. run_py.
    rewrite read_files_run. cbn [app].
    destruct (decoded_documents (file :: rest)) as [|doc docs] eqn:Hdec;
      [congruence|]. run_py.
    rewrite Hsplit. rewrite Hcreate.
    destruct success; reflexivity.
Qed.

(** C7 at work: a single file that is not UTF-8. *)
Lemma compute_embeddings_skips_undecodable_witness :
  let W := Sim.world Sim.healthy in
  let files := [{| name := lit "bad.txt"; read := [xff] |}] in
  let st := Sim.fresh Sim.healthy Sim.Absent in
  StoryProcessor.compute_embeddings W files st
  = (Return (lit "Error computing embeddings: "
                 ++ lit "No valid documents found in provided files"),
     with_trace st (decode_warnings W files)).
Proof.
  refine (proj1 (proj2 (compute_embeddings_skips_undecodable
                          (Sim.world Sim.healthy)
                          [{| name := lit "bad.txt"; read := [xff] |}]
                          (Sim.fresh Sim.healthy Sim.Absent)))
                _ eq_refl).
  discriminate.
Defined.

(** A batch with one bad file: the bad file is skipped with a warning and
    the story is indexed and saved. *)
Lemma compute_embeddings_one_bad_file :
  let W := Sim.world Sim.healthy in
  let files := [{| name := lit "bad.txt"; read := [xff] |};
                {| name := lit "hi.txt"; read := [x68; x69] |}] in
  let out := StoryProcessor.compute_embeddings W files
                                               (Sim.fresh Sim.healthy Sim.Absent) in
  fst out = Return (lit "Embeddings computed and stored successfully")
  /\ db (snd out)
     = Some [({| page_content := lit "hi";
                 metadata := [(lit "title", lit "hi")] |}, 2%Z)]
  /\ hd_error (trace (snd out))
     = Some (Print (lit "Error processing file bad.txt: "
                        ++ codec_error W [xff])).
Proof. repeat split; vm_compute; reflexivity. Qed.

(** ** The title of a document *)

(** X12: on a name whose only dot is the one of the extension, the title
    is the name minus the extension. *)
Lemma title_of_simple_name (base : str) (data : bytes) :
  ~ In 46%N base ->
  StoryProcessor.title_of {| name := base ++ lit ".txt"; read := data |} = base.
Proof.
  unfold StoryProcessor.title_of; cbn [name].
  change (replace (base ++ lit ".txt") (lit ".txt") (lit ""))
    with (replace_scan (lit ".txt") [] 0 (base ++ lit ".txt")).
  induction base as [|c base IH]; intros Hdot; [reflexivity|].
  cbn [app replace_scan].
  assert (Hc : (46 =? c)%N = false).
  { apply N.eqb_neq. intros <-. apply Hdot; left; reflexivity. }
  change (startswith (lit ".txt") (c :: base ++ lit ".txt"))
    with ((46 =? c)%N && startswith (lit "txt") (base ++ lit ".txt")).
  rewrite Hc. cbn [andb]. f_equal. apply IH.
  intros Hin; apply Hdot; right; exact Hin.
Qed.

(** C9: the code at a failing input.  For the upload [story.txt.txt] the
    title is [story]: both occurrences of [".txt"] are removed, where the
    name minus its extension is [story.txt]. *)
Theorem title_of_removes_every_txt :
  let file := {| name := lit "story.txt.txt"; read := [] |} in
  StoryProcessor.title_of file = lit "story"
  /\ name_minus_extension (name file) = lit "story.txt"
  /\ str_eqb (StoryProcessor.title_of file) (name_minus_extension (name file))
     = false.
Proof. repeat split. Qed.

(** * More of the two modules and of [app.py] *)

(** ** [VectorDB.save_vector_db] and [VectorDB.load_vector_db] *)

Lemma save_vector_db_run (W : World) (st : State W) :
  VectorDB.save_vector_db W st =
  match db st with
  | None =>
    (Return false,
     with_trace st [Print (lit "Error saving vector database: "
                               ++ lit "No database to save")])
  | Some index =>
    match save_local W index (disk st) with
    | (Return _, d') =>
      (Return true,
       {| db := db st; disk := d';
          trace := trace st
                     ++ [SaveLocal;
                         Print (lit "Successfully saved vector database to "
                                    ++ VectorDB.db_path)] |})
    | (Raise e, d') =>
      (Return false,
       {| db := db st; disk := d';
          trace := trace st
                     ++ [SaveLocal;
                         Print (lit "Error saving vector database: "
                                    ++ exc_str e)] |})
    end
  end.
Proof.
  destruct st as [[index|] dk tr];
    unfold VectorDB.save_vector_db, with_trace; run_py; [|reflexivity].
  destruct (save_local W index dk) as [[u|e] d']; run_py;
    rewrite <- app_assoc; reflexivity.
Qed.

(** X1: [save_vector_db] never raises and never touches [db]; it returns
    [True] exactly when an index is in memory and the library wrote it; with
    no index in memory nothing is written: the disk is as before and the
    only event is the printed error. *)
Theorem save_vector_db_outcome (W : World) (st : State W) :
  let out := VectorDB.save_vector_db W st in
  (exists b : bool, fst out = Return b)
  /\ db (snd out) = db st
  /\ (fst out = Return true <->
      exists index, db st = Some index
                    /\ fst (save_local W index (disk st)) = Return tt)
  /\ (db st = None ->
      disk (snd out) = disk st
      /\ trace (snd out)
         = trace st ++ [Print (lit "Error saving vector database: "
                                   ++ lit "No database to save")]).
Proof.
  cbv zeta. rewrite save_vector_db_run.
  destruct st as [[index|] dk tr]; cbn [db disk trace].
  - destruct (save_local W index dk) as [[[]|e] d'] eqn:Hsave;
      cbn [fst snd db disk trace].
    + split; [eexists; reflexivity|]. split; [reflexivity|].
      split; [|discriminate].
      split; [|reflexivity].
      intros _. exists index. rewrite Hsave. split; reflexivity.
    + split; [eexists; reflexivity|]. split; [reflexivity|].
      split; [|discriminate].
      split; [discriminate|].
      intros (index' & Hi & Hs). inversion Hi; subst index'.
      rewrite Hsave in Hs. discriminate.
  - cbn [fst snd db disk trace with_trace].
    split; [eexists; reflexivity|]. split; [reflexivity|].
    split; [|split; reflexivity].
    split; [discriminate|].
    intros (index & Hi & _); discriminate.
Qed.

(** X1 at work: a fresh process has nothing to save. *)
Lemma save_vector_db_outcome_witness :
  let st := Sim.fresh Sim.healthy Sim.Absent in
  let out := VectorDB.save_vector_db (Sim.world Sim.healthy) st in
  disk (snd out) = Sim.Absent
  /\ trace (snd out)
     = [Print (lit "Error saving vector database: "
                   ++ lit "No database to save")].
Proof.
  exact (proj2 (proj2 (proj2 (save_vector_db_outcome
                                (Sim.world Sim.healthy)
                                (Sim.fresh Sim.healthy Sim.Absent))))
               eq_refl).
Defined.

(** X2: [load_vector_db] never raises and never changes the disk; it
    returns [True] exactly when something is at [db_path] and the library
    reads an index from it, and then [db] is that index, whatever was in
    memory before; when it returns [False], [db] is what it was. *)
Theorem load_vector_db_outcome (W : World) (st : State W) :
  let out := VectorDB.load_vector_db W st in
  (exists b : bool, fst out = Return b)
  /\ disk (snd out) = disk st
  /\ (fst out = Return true <->
      os_path_exists W (disk st) = true
      /\ exists index, load_local W (disk st) = Return index)
  /\ (forall index,
         os_path_exists W (disk st) = true ->
         load_local W (disk st) = Return index ->
         db (snd out) = Some index)
  /\ (fst out = Return false -> db (snd out) = db st).
Proof.
  cbv zeta. rewrite load_vector_db_run.
  destruct (os_path_exists W (disk st)).
  - destruct (load_local W (disk st)) as [index|e];
      cbn [fst snd db disk with_trace].
    + split; [eexists; reflexivity|]. split; [reflexivity|].
      split; [|split; [|discriminate]].
      * split; [|reflexivity]. intros _; split; [reflexivity|].
        exists index; reflexivity.
      * intros index' _ H; inversion H; reflexivity.
    + split; [eexists; reflexivity|]. split; [reflexivity|].
      split; [|split; [|reflexivity]].
      * split; [discriminate|]. intros (_ & index & H); discriminate.
      * intros index _ H; discriminate.
  - cbn [fst snd db disk with_trace].
    split; [eexists; reflexivity|]. split; [reflexivity|].
    split; [|split; [|reflexivity]].
    + split; [discriminate|]. intros (H & _); discriminate.
    + intros index H; discriminate.
Qed.

(** X2 at work: loading replaces the index in memory by the saved one. *)
Lemma load_vector_db_outcome_witness :
  let st := Sim.loaded Sim.healthy [] (Sim.Saved Sim.tale_index) in
  db (snd (VectorDB.load_vector_db (Sim.world Sim.healthy) st))
  = Some Sim.tale_index.
Proof.
  exact (proj1 (proj2 (proj2 (proj2 (load_vector_db_outcome
                                       (Sim.world Sim.healthy)
                                       (Sim.loaded Sim.healthy []
                                                   (Sim.Saved Sim.tale_index))))))
               Sim.tale_index eq_refl eq_refl).
Defined.

(** ** [VectorDB.create_vector_db], whole *)

Lemma create_vector_db_run (W : World) (documents : list str_or_document)
      (st : State W) :
  VectorDB.create_vector_db W documents st =
  let docs := VectorDB._ensure_documents documents in
  let texts := map page_content docs in
  if falsy documents
  then (Return false,
        with_trace st
          [Print (lit "Error creating vector database: "
                      ++ lit "No documents provided for initialization")])
  else
    match embed_documents W texts with
    | Raise e =>
      (Return false,
       with_trace st
         [EmbedDocuments texts;
          Print (lit "Error creating vector database: " ++ exc_str e)])
    | Return vs =>
      match save_local W (combine docs vs) (disk st) with
      | (Return _, d') =>
        (Return true,
         {| db := Some (combine docs vs); disk := d';
            trace := trace st
                       ++ [EmbedDocuments texts; SaveLocal;
                           Print (lit "Successfully saved vector database to "
                                      ++ VectorDB.db_path)] |})
      | (Raise e, d') =>
        (Return false,
         {| db := Some (combine docs vs); disk := d';
            trace := trace st
                       ++ [EmbedDocuments texts; SaveLocal;
                           Print (lit "Error saving vector database: "
                                      ++ exc_str e)] |})
      end
    end.
Proof.
  cbv zeta.
  unfold VectorDB.create_vector_db, VectorDB.save_vector_db, with_trace; run_py.
  destruct documents as [|d ds]; run_py; [reflexivity|].
  destruct (embed_documents W _) as [vs|e]; run_py;
    [|rewrite <- app_assoc; reflexivity].
  destruct (save_local W _ _) as [[u|e] d']; run_py;
    rewrite <- !app_assoc; reflexivity.
Qed.

Lemma ensure_documents_of_docs (docs : list Document) :
  VectorDB._ensure_documents (map Doc docs) = docs.
Proof.
  unfold VectorDB._ensure_documents. rewrite map_map. apply map_id.
Qed.

Lemma ensure_documents_texts (documents : list str_or_document) :
  map page_content (VectorDB._ensure_documents documents)
  = map text_of documents.
Proof.
  unfold VectorDB._ensure_documents. rewrite map_map.
  apply map_ext. intros [text|d]; reflexivity.
Qed.

(** X3: a raw string in the input of [create_vector_db] stands for the
    Document with that text and no metadata: the call on a mixed list is the
    call on the list of Documents [_ensure_documents] makes of it, Documents
    pass through unchanged, and the texts embedded are the texts of the
    inputs, in order. *)
Theorem create_vector_db_normalises_input (W : World)
        (documents : list str_or_document) (st : State W) :
  VectorDB.create_vector_db W documents st
  = VectorDB.create_vector_db W
      (map Doc (VectorDB._ensure_documents documents)) st
  /\ (forall docs, VectorDB._ensure_documents (map Doc docs) = docs)
  /\ (forall text rest,
         VectorDB._ensure_documents (Text text :: rest)
         = {| page_content := text; metadata := [] |}
             :: VectorDB._ensure_documents rest)
  /\ (forall vs,
         embed_documents W (map text_of documents) = Return vs ->
         documents <> [] ->
         db (snd (VectorDB.create_vector_db W documents st))
         = Some (combine (VectorDB._ensure_documents documents) vs)).
Proof.
  split; [|split; [|split]].
  - rewrite !create_vector_db_run. cbv zeta.
    rewrite ensure_documents_of_docs.
    destruct documents; reflexivity.
  - apply ensure_documents_of_docs.
  - reflexivity.
  - intros vs Hvs Hne. rewrite create_vector_db_run. cbv zeta.
    rewrite ensure_documents_texts, Hvs.
    destruct documents as [|d ds]; [congruence|]. cbn [falsy].
    destruct (save_local W _ _) as [[u|e] d']; reflexivity.
Qed.

(** X3 at work: a raw string and a Document, indexed together. *)
Lemma create_vector_db_normalises_input_witness :
  let W := Sim.world Sim.healthy in
  db (snd (VectorDB.create_vector_db W [Text (lit "Once."); Doc Sim.tale]
                                     (Sim.fresh Sim.healthy Sim.Absent)))
  = Some [({| page_content := lit "Once."; metadata := [] |}, 5%Z);
          (Sim.tale, 50%Z)].
Proof.
  refine (proj2 (proj2 (proj2 (create_vector_db_normalises_input
                                 (Sim.world Sim.healthy)
                                 [Text (lit "Once."); Doc Sim.tale]
                                 (Sim.fresh Sim.healthy Sim.Absent))))
                [5%Z; 50%Z] eq_refl _).
  discriminate.
Defined.

(** X4: after a build that returned [True], a search runs on the index
    just built: it returns what the library's search returns on the entries
    of the given documents, for the query and [k] passed, and it leaves
    [db] and the disk as they are. *)
Theorem similarity_search_after_build (W : World)
        (documents : list str_or_document) (st : State W)
        (query : str) (k : Z) :
  let built := snd (VectorDB.create_vector_db W documents st) in
  let out := VectorDB.similarity_search W query k built in
  fst (VectorDB.create_vector_db W documents st) = Return true ->
  (exists vs,
      embed_documents W (map text_of documents) = Return vs
      /\ fst out
         = index_search W (combine (VectorDB._ensure_documents documents) vs)
                        query k)
  /\ db (snd out) = db built /\ disk (snd out) = disk built.
Proof.
  cbv zeta. rewrite create_vector_db_run. cbv zeta.
  rewrite ensure_documents_texts, similarity_search_run.
  destruct (falsy documents); [discriminate|].
  destruct (embed_documents W (map text_of documents)) as [vs|e];
    [|discriminate].
  destruct (save_local W _ _) as [[u|e] d']; cbn [fst snd db]; [|discriminate].
  intros _. split; [exists vs; split; reflexivity|].
  split; reflexivity.
Qed.

(** X4 at work: the story is indexed and comes back from a search. *)
Lemma similarity_search_after_build_witness :
  let W := Sim.world Sim.healthy in
  let built := snd (VectorDB.create_vector_db W [Doc Sim.tale]
                                              (Sim.fresh Sim.healthy Sim.Absent)) in
  db (snd (VectorDB.similarity_search W (lit "Alice") 4 built)) = db built
  /\ disk (snd (VectorDB.similarity_search W (lit "Alice") 4 built))
     = disk built.
Proof.
  exact (proj2 (similarity_search_after_build
                  (Sim.world Sim.healthy) [Doc Sim.tale]
                  (Sim.fresh Sim.healthy Sim.Absent) (lit "Alice") 4
                  eq_refl)).
Defined.

(** ** Building, restarting, clearing and querying *)

Section RoundTrip.
Variable W : World.

(** What the library saved is there, and loads back as it was. *)
Hypothesis saved_loads :
  forall index d d',
    save_local W index d = (Return tt, d') ->
    os_path_exists W d' = true /\ load_local W d' = Return index.

(** X5: persistence round trip.  After a build that returned [True], a
    process restarted on the same disk, with no index in memory, loads the
    very index that was built; a query there loads it too, runs the chain
    once, and leaves that index in [db] and the disk as it was. *)
Theorem build_restart_query (documents : list str_or_document)
        (st : State W) (character_name : str) :
  let built := snd (VectorDB.create_vector_db W documents st) in
  let asked :=
      snd (StoryProcessor.get_character_info W character_name
                                             (restarted built)) in
  fst (VectorDB.create_vector_db W documents st) = Return true ->
  fst (VectorDB.load_vector_db W (restarted built)) = Return true
  /\ db (snd (VectorDB.load_vector_db W (restarted built))) = db built
  /\ db asked = db built
  /\ disk asked = disk built
  /\ trace asked
     = [LoadLocal;
        Print (lit "Successfully loaded vector database from "
                   ++ VectorDB.db_path);
        ChainRun character_name].
Proof.
  cbv zeta. rewrite create_vector_db_run. cbv zeta.
  destruct (falsy documents); [discriminate|].
  destruct (embed_documents W _) as [vs|e]; [|discriminate].
  destruct (save_local W _ _) as [[[]|e] d'] eqn:Hsave; cbn [fst snd];
    [|discriminate].
  intros _. destruct (saved_loads _ _ _ Hsave) as [Hex Hload].
  rewrite (get_character_info_unloaded W character_name (restarted _) eq_refl).
  rewrite load_vector_db_run. unfold restarted; cbn [db disk trace].
  rewrite Hex, Hload. cbn [fst snd db].
  erewrite get_character_info_loaded by reflexivity.
  cbn [snd with_trace db disk trace]. repeat split.
Qed.
End RoundTrip.

(** X5 at work: the story is indexed, the process restarts and loads it. *)
Lemma build_restart_query_witness :
  let W := Sim.world Sim.healthy in
  let built := snd (VectorDB.create_vector_db W [Doc Sim.tale]
                                              (Sim.fresh Sim.healthy Sim.Absent)) in
  fst (VectorDB.load_vector_db W (restarted built)) = Return true
  /\ db (snd (VectorDB.load_vector_db W (restarted built)))
     = Some Sim.tale_index.
Proof.
  assert (H : forall index d d',
             save_local (Sim.world Sim.healthy) index d = (Return tt, d') ->
             os_path_exists (Sim.world Sim.healthy) d' = true
             /\ load_local (Sim.world Sim.healthy) d' = Return index).
  { intros index d d' Hs. inversion Hs. split; reflexivity. }
  destruct (build_restart_query (Sim.world Sim.healthy) H [Doc Sim.tale]
              (Sim.fresh Sim.healthy Sim.Absent) (lit "Alice") eq_refl)
    as (Hret & Hdb & _).
  split; [exact Hret | exact Hdb].
Defined.

(** X6: after a [clear_vector_db] that returned [True], on a file system
    where a removed path no longer exists, a query finds nothing to load: it
    returns the load-failure error, prints the missing-file message and does
    not run the chain. *)
Theorem clear_then_query_has_no_index (W : World)
        (Hrm : forall d d', os_remove W d = Return d' ->
                            os_path_exists W d' = false)
        (st : State W) (character_name : str) :
  let cleared := snd (VectorDB.clear_vector_db W st) in
  fst (VectorDB.clear_vector_db W st) = Return true ->
  StoryProcessor.get_character_info W character_name cleared
  = (Return (StoryProcessor.error_result
               (lit "Error getting character information: "
                    ++ lit "Failed to load vector database")),
     with_trace cleared
       [Print (lit "Error loading vector database: "
                   ++ lit "No vector database found at "
                   ++ VectorDB.db_path)]).
Proof.
  cbv zeta. rewrite clear_vector_db_run.
  destruct (os_path_exists W (disk st)) eqn:Hex.
  - destruct (os_remove W (disk st)) as [d'|e] eqn:Hr; cbn [fst snd];
      [|discriminate].
    intros _.
    rewrite get_character_info_unloaded by reflexivity.
    rewrite load_vector_db_run. cbn [disk].
    rewrite (Hrm _ _ Hr). reflexivity.
  - cbn [fst snd]. intros _.
    rewrite get_character_info_unloaded by reflexivity.
    rewrite load_vector_db_run. cbn [disk].
    rewrite Hex. reflexivity.
Qed.

(** X6 at work: an index that is in memory only is cleared, then asked
    about. *)
Lemma clear_then_query_has_no_index_witness :
  let W := Sim.world Sim.healthy in
  let st := Sim.loaded Sim.healthy Sim.tale_index Sim.Absent in
  fst (StoryProcessor.get_character_info
         W (lit "Alice") (snd (VectorDB.clear_vector_db W st)))
  = Return (StoryProcessor.error_result
              (lit "Error getting character information: "
                   ++ lit "Failed to load vector database")).
Proof.
  refine (f_equal fst
            (clear_then_query_has_no_index
               (Sim.world Sim.healthy) _
               (Sim.loaded Sim.healthy Sim.tale_index Sim.Absent)
               (lit "Alice") eq_refl)).
  intros [|index] d' H; discriminate H.
Defined.

(** X7: a query only reads.  [get_character_info] leaves the disk as it
    is and keeps an index that is in memory; what it adds to the trace is
    nothing, or the print of a load that found nothing at [db_path], or one
    load with its print, followed by at most one run of the chain for the
    name asked: one load attempt at most, and the chain run once at most,
    also when its answer does not parse. *)
Theorem get_character_info_only_reads (W : World) (character_name : str)
        (st : State W) :
  let out := StoryProcessor.get_character_info W character_name st in
  disk (snd out) = disk st
  /\ (forall index, db st = Some index -> db (snd out) = Some index)
  /\ exists loading,
      (loading = []
       \/ (exists line, loading = [Print line])
       \/ (exists line, loading = [LoadLocal; Print line]))
      /\ (trace (snd out) = trace st ++ loading
          \/ trace (snd out)
             = trace st ++ loading ++ [ChainRun character_name]).
Proof.
  cbv zeta. destruct (db st) as [index|] eqn:Hdb.
  - rewrite (get_character_info_loaded W character_name st index Hdb).
    cbn [fst snd with_trace db disk trace].
    split; [reflexivity|]. split; [intros i H; rewrite <- H; exact Hdb|].
    exists []. split; [left; reflexivity | right; reflexivity].
  - rewrite (get_character_info_unloaded W character_name st Hdb).
    rewrite load_vector_db_run.
    destruct (os_path_exists W (disk st)).
    + destruct (load_local W (disk st)) as [index|e].
      * erewrite get_character_info_loaded by reflexivity.
        cbn [fst snd with_trace db disk trace].
        split; [reflexivity|]. split; [discriminate|].
        eexists [LoadLocal; Print _].
        split; [right; right; eexists; reflexivity|].
        right. rewrite <- !app_assoc. reflexivity.
      * cbn [fst snd with_trace db disk trace].
        split; [reflexivity|]. split; [discriminate|].
        eexists. split; [right; right; eexists; reflexivity|].
        left; reflexivity.
    + cbn [fst snd with_trace db disk trace].
      split; [reflexivity|]. split; [discriminate|].
      eexists. split; [right; left; eexists; reflexivity|].
      left; reflexivity.
Qed.

(** X7 at work: the index in memory survives a query. *)
Lemma get_character_info_only_reads_witness :
  let s := Sim.babbling (lit "Alice is the hero.") in
  let st := Sim.loaded s Sim.tale_index Sim.Absent in
  db (snd (StoryProcessor.get_character_info (Sim.world s) (lit "Alice") st))
  = Some Sim.tale_index.
Proof.
  exact (proj1 (proj2 (get_character_info_only_reads
                         (Sim.world (Sim.babbling (lit "Alice is the hero.")))
                         (lit "Alice")
                         (Sim.loaded (Sim.babbling (lit "Alice is the hero."))
                                     Sim.tale_index Sim.Absent)))
               Sim.tale_index eq_refl).
Defined.

(** X8: the index is loaded once.  When a query made with no index in
    memory loads one, the index stays in [db], and the next query, for any
    name, does nothing but run the chain: no second load. *)
Theorem get_character_info_loads_once (W : World) (first next : str)
        (st : State W) :
  db st = None ->
  fst (VectorDB.load_vector_db W st) = Return true ->
  let st1 := snd (StoryProcessor.get_character_info W first st) in
  db st1 = db (snd (VectorDB.load_vector_db W st))
  /\ snd (StoryProcessor.get_character_info W next st1)
     = with_trace st1 [ChainRun next].
Proof.
  intros Hdb. cbv zeta.
  rewrite (get_character_info_unloaded W first st Hdb).
  rewrite load_vector_db_run.
  destruct (os_path_exists W (disk st)); [|discriminate].
  destruct (load_local W (disk st)) as [index|e]; [|discriminate].
  intros _. erewrite get_character_info_loaded by reflexivity.
  cbn [fst snd with_trace db].
  split; [reflexivity|].
  erewrite get_character_info_loaded by reflexivity. reflexivity.
Qed.

(** X8 at work: two queries on a fresh process with a saved index. *)
Lemma get_character_info_loads_once_witness :
  let W := Sim.world Sim.healthy in
  let st := Sim.fresh Sim.healthy (Sim.Saved Sim.tale_index) in
  let st1 := snd (StoryProcessor.get_character_info W (lit "Alice") st) in
  snd (StoryProcessor.get_character_info W (lit "Bob") st1)
  = with_trace st1 [ChainRun (lit "Bob")].
Proof.
  exact (proj2 (get_character_info_loads_once
                  (Sim.world Sim.healthy) (lit "Alice") (lit "Bob")
                  (Sim.fresh Sim.healthy (Sim.Saved Sim.tale_index))
                  eq_refl eq_refl)).
Defined.

(** ** [StoryProcessor.compute_embeddings], whole *)

Lemma compute_embeddings_run (W : World) (files : list UploadedFile)
      (st : State W) :
  StoryProcessor.compute_embeddings W files st =
  let st1 := with_trace st (decode_warnings W files) in
  if falsy files
  then (Return (lit "Error computing embeddings: " ++ lit "No files provided"),
        st)
  else if falsy (decoded_documents files)
  then (Return (lit "Error computing embeddings: "
                    ++ lit "No valid documents found in provided files"),
        st1)
  else
    match CharacterTextSplitter.split_documents StoryProcessor.text_splitter
            (decoded_documents files) with
    | Raise e => (Return (lit "Error computing embeddings: " ++ exc_str e), st1)
    | Return texts =>
      match VectorDB.create_vector_db W (map Doc texts) st1 with
      | (Return true, st2) =>
        (Return (lit "Embeddings computed and stored successfully"), st2)
      | (Return false, st2) => (Return (lit "Error storing embeddings"), st2)
      | (Raise e, st2) =>
        (Return (lit "Error computing embeddings: " ++ exc_str e), st2)
      end
    end.
Proof.
  cbv zeta. unfold StoryProcessor.compute_embeddings; run_py.
  destruct files as [|file rest]; run_py; [reflexivity|].
  rewrite read_files_run. cbn [app].
  destruct (decoded_documents (file :: rest)) as [|doc docs]; run_py;
    [reflexivity|].
  destruct (CharacterTextSplitter.split_documents _ _) as [texts|e]; run_py;
    [|reflexivity].
  destruct (VectorDB.create_vector_db W (map Doc texts) _) as [[[|]|e] st2];
    reflexivity.
Qed.

Lemma decoded_documents_from_files (files : list UploadedFile)
      (doc : Document) :
  In doc (decoded_documents files) ->
  exists file content,
    In file files
    /\ utf8_code_points (read file) = Some content
    /\ doc = {| page_content := content;
                metadata := [(lit "title", StoryProcessor.title_of file)] |}.
Proof.
  unfold decoded_documents. intros Hin. apply in_flat_map in Hin.
  destruct Hin as (file & Hfile & Hdoc).
  destruct (utf8_code_points (read file)) as [content|] eqn:Hdec;
    [|destruct Hdoc].
  destruct Hdoc as [<-|[]]. exists file, content. repeat split; assumption.
Qed.

(** X9: [compute_embeddings] never raises, and its message is one of
    four: the success message, "Error storing embeddings", or one of the two
    input errors; after an input error the index in memory and the disk are
    what they were, and nothing was sent to the embedding provider. *)
Theorem compute_embeddings_messages (W : World) (files : list UploadedFile)
        (st : State W) :
  let out := StoryProcessor.compute_embeddings W files st in
  exists message,
    fst out = Return message
    /\ (message = lit "Embeddings computed and stored successfully"
        \/ message = lit "Error storing embeddings"
        \/ (message = lit "Error computing embeddings: "
                          ++ lit "No files provided"
            \/ message = lit "Error computing embeddings: "
                             ++ lit "No valid documents found in provided files")
           /\ db (snd out) = db st /\ disk (snd out) = disk st
           /\ exists prints,
               trace (snd out) = trace st ++ prints
               /\ Forall (fun ev => exists line, ev = Print line) prints).
Proof.
  cbv zeta. rewrite compute_embeddings_run. cbv zeta.
  destruct (falsy files).
  { eexists; split; [reflexivity|]. right; right.
    split; [left; reflexivity|]. cbn [fst snd]. repeat split.
    exists []. rewrite app_nil_r. split; [reflexivity | constructor]. }
  destruct (falsy (decoded_documents files)).
  { eexists; split; [reflexivity|]. right; right.
    split; [right; reflexivity|]. cbn [fst snd with_trace db disk trace].
    repeat split.
    exists (decode_warnings W files). split; [reflexivity|].
    unfold decode_warnings. apply Forall_forall. intros ev Hin.
    apply in_flat_map in Hin. destruct Hin as (file & _ & Hin).
    destruct (utf8_code_points (read file)); [destruct Hin|].
    destruct Hin as [<-|[]]. eexists; reflexivity. }
  destruct (split_documents_spec StoryProcessor.text_splitter
              ltac:(cbn; lia) ltac:(cbn; lia) (decoded_documents files))
    as (texts & -> & _).
  destruct (create_vector_db_returns W (map Doc texts)
              (with_trace st (decode_warnings W files))) as [b Hb].
  destruct (VectorDB.create_vector_db W (map Doc texts) _) as [r st2].
  cbn [fst] in Hb; subst r.
  destruct b; eexists; (split; [reflexivity|]);
    [left | right; left]; reflexivity.
Qed.

(** X10: what a successful call leaves in memory.  When
    [compute_embeddings] answers with the success message, [db] holds one
    entry per chunk of the files that decode, in order, each with the
    embedding the provider gave for it, and every chunk carries as its only
    metadata the title of a file of the upload that decodes. *)
Theorem compute_embeddings_success_index (W : World)
        (files : list UploadedFile) (st : State W) :
  let out := StoryProcessor.compute_embeddings W files st in
  fst out = Return (lit "Embeddings computed and stored successfully") ->
  exists texts vs,
    CharacterTextSplitter.split_documents StoryProcessor.text_splitter
                                          (decoded_documents files)
    = Return texts
    /\ embed_documents W (map page_content texts) = Return vs
    /\ db (snd out) = Some (combine texts vs)
    /\ map fst (combine texts vs) = texts
    /\ forall chunk, In chunk texts ->
         exists file content,
           In file files
           /\ utf8_code_points (read file) = Some content
           /\ metadata chunk = [(lit "title", StoryProcessor.title_of file)].
Proof.
  cbv zeta. rewrite compute_embeddings_run. cbv zeta.
  destruct (falsy files); [cbn [fst]; intros H; inversion H|].
  destruct (falsy (decoded_documents files));
    [cbn [fst]; intros H; inversion H|].
  destruct (split_documents_spec StoryProcessor.text_splitter
              ltac:(cbn; lia) ltac:(cbn; lia) (decoded_documents files))
    as (texts & -> & Hchunks).
  rewrite create_vector_db_run. cbv zeta.
  rewrite ensure_documents_of_docs.
  destruct (falsy (map Doc texts)); [cbn [fst]; intros H; inversion H|].
  destruct (embed_documents W (map page_content texts)) as [vs|e] eqn:Hemb;
    [|cbn [fst]; intros H; inversion H].
  destruct (save_local W _ _) as [[u|e] d']; cbn [fst snd db];
    [|intros H; inversion H].
  intros _. exists texts, vs.
  split; [reflexivity|]. split; [exact Hemb|]. split; [reflexivity|].
  split.
  - apply combine_complete.
    rewrite (embed_documents_length _ _ _ Hemb), length_map. reflexivity.
  - intros chunk Hin.
    destruct (Hchunks chunk Hin) as (doc & Hdoc & Hmeta & _).
    destruct (decoded_documents_from_files files doc Hdoc)
      as (file & content & Hfile & Hdec & ->).
    exists file, content. repeat split; assumption.
Qed.

(** X10 at work: of a bad file and a story, the story is what is indexed. *)
Lemma compute_embeddings_success_index_witness :
  let W := Sim.world Sim.healthy in
  let files := [{| name := lit "bad.txt"; read := [xff] |};
                {| name := lit "hi.txt"; read := [x68; x69] |}] in
  let out := StoryProcessor.compute_embeddings
               W files (Sim.fresh Sim.healthy Sim.Absent) in
  exists texts vs,
    CharacterTextSplitter.split_documents StoryProcessor.text_splitter
                                          (decoded_documents files)
    = Return texts
    /\ embed_documents W (map page_content texts) = Return vs
    /\ db (snd out) = Some (combine texts vs).
Proof.
  destruct (compute_embeddings_success_index
              (Sim.world Sim.healthy)
              [{| name := lit "bad.txt"; read := [xff] |};
               {| name := lit "hi.txt"; read := [x68; x69] |}]
              (Sim.fresh Sim.healthy Sim.Absent))
    as (texts & vs & Hsplit & Hemb & Hdb & _).
  - vm_compute; reflexivity.
  - exists texts, vs. repeat split; assumption.
Defined.

(** X11: every file of an upload is accounted for.  The loop over the
    files never raises and changes neither [db] nor the disk; each file
    gives a document or a printed warning, never both: the documents and the
    warnings together are as many as the files. *)
Theorem read_files_accounts_for_every_file (W : World)
        (files : list UploadedFile) (st : State W) :
  exists documents warnings,
    StoryProcessor.read_files W files [] st
    = (Return documents, with_trace st warnings)
    /\ (length documents + length warnings = length files)%nat
    /\ Forall (fun ev => exists line, ev = Print line) warnings
    /\ Forall (fun doc => exists file,
                   In file files
                   /\ utf8_code_points (read file) = Some (page_content doc)
                   /\ metadata doc
                      = [(lit "title", StoryProcessor.title_of file)])
              documents.
Proof.
  exists (decoded_documents files), (decode_warnings W files).
  split; [rewrite read_files_run; reflexivity|].
  split; [|split].
  - unfold decoded_documents, decode_warnings.
    induction files as [|file rest IH]; [reflexivity|].
    cbn [flat_map]. rewrite !length_app. cbn [length].
    destruct (utf8_code_points (read file)); cbn [length]; lia.
  - unfold decode_warnings. apply Forall_forall. intros ev Hin.
    apply in_flat_map in Hin. destruct Hin as (file & _ & Hin).
    destruct (utf8_code_points (read file)); [destruct Hin|].
    destruct Hin as [<-|[]]. eexists; reflexivity.
  - apply Forall_forall. intros doc Hin.
    destruct (decoded_documents_from_files files doc Hin)
      as (file & content & Hfile & Hdec & ->).
    exists file. repeat split; assumption.
Qed.

(** ** Titles, again *)

(** X12 at work (for [title_of_simple_name]): [story.txt] is titled
    [story]. *)
Lemma title_of_simple_name_witness :
  StoryProcessor.title_of {| name := lit "story" ++ lit ".txt"; read := [] |}
  = lit "story".
Proof.
  apply (title_of_simple_name (lit "story") []).
  cbv. intros H. repeat (destruct H as [H|H]; [discriminate H|]). exact H.
Defined.

Lemma replace_scan_absent (old new s : str) :
  occurs old s = false -> replace_scan old new 0 s = s.
Proof.
  induction s as [|c s IH]; intros Hno; [reflexivity|].
  cbn [occurs] in Hno. apply orb_false_iff in Hno. destruct Hno as [Hhere Hrest].
  cbn [replace_scan]. rewrite Hhere. f_equal. apply IH, Hrest.
Qed.

(** X13: a name in which [".txt"] does not occur is its own title: nothing
    is removed, so an extension in another case, or none, stays in the
    title. *)
Theorem title_of_without_txt (file : UploadedFile) :
  occurs (lit ".txt") (name file) = false ->
  StoryProcessor.title_of file = name file.
Proof.
  intros Hno. unfold StoryProcessor.title_of.
  change (replace (name file) (lit ".txt") (lit ""))
    with (replace_scan (lit ".txt") [] 0 (name file)).
  apply replace_scan_absent, Hno.
Qed.

(** X13 at work: an upper-case extension is kept. *)
Lemma title_of_without_txt_witness :
  StoryProcessor.title_of {| name := lit "STORY.TXT"; read := [] |}
  = lit "STORY.TXT".
Proof.
  exact (title_of_without_txt {| name := lit "STORY.TXT"; read := [] |}
                              eq_refl).
Defined.

(** ** [app.py] *)

(** X14: the "Process Stories" button.  Its own [except] branch is never
    taken; it shows the success box, with the message, exactly when
    [compute_embeddings] answered with the success message, and the error
    box with the message otherwise: no failure message is taken for a
    success by the test on the word "successfully".  The state is the one
    [compute_embeddings] left. *)
Theorem process_stories_shows_outcome (W : World)
        (unicode_lower : str -> nat -> N -> str)
        (files : list UploadedFile) (st : State W) :
  exists message,
    fst (StoryProcessor.compute_embeddings W files st) = Return message
    /\ App.process_stories W unicode_lower files st
       = (Return [if str_eqb message
                             (lit "Embeddings computed and stored successfully")
                  then St_success message
                  else St_error message],
          snd (StoryProcessor.compute_embeddings W files st)).
Proof.
  unfold App.process_stories; run_py.
  rewrite compute_embeddings_run. cbv zeta.
  destruct (falsy files);
    [eexists; split; [reflexivity|]; reflexivity|].
  destruct (falsy (decoded_documents files));
    [eexists; split; [reflexivity|]; reflexivity|].
  destruct (split_documents_spec StoryProcessor.text_splitter
              ltac:(cbn; lia) ltac:(cbn; lia) (decoded_documents files))
    as (texts & -> & _).
  destruct (create_vector_db_returns W (map Doc texts)
              (with_trace st (decode_warnings W files))) as [b Hb].
  destruct (VectorDB.create_vector_db W (map Doc texts) _) as [r st2].
  cbn [fst] in Hb; subst r.
  destruct b; eexists; (split; [reflexivity|]); reflexivity.
Qed.

(** X15: the "Clear All Data" button.  Its own [except] branch is never
    taken; it shows the success box exactly when [clear_vector_db] returned
    [True], and then, on a file system where a removed path no longer
    exists, no index is in memory and nothing is at [db_path]; otherwise it
    shows "Error clearing data". *)
Theorem clear_all_data_shows_outcome (W : World)
        (Hrm : forall d d', os_remove W d = Return d' ->
                            os_path_exists W d' = false)
        (st : State W) :
  let out := App.clear_all_data W st in
  snd out = snd (VectorDB.clear_vector_db W st)
  /\ (fst (VectorDB.clear_vector_db W st) = Return true
      /\ fst out = Return [St_success (lit "All data cleared successfully")]
      /\ db (snd out) = None
      /\ os_path_exists W (disk (snd out)) = false
      \/ fst (VectorDB.clear_vector_db W st) = Return false
         /\ fst out = Return [St_error (lit "Error clearing data")]).
Proof.
  cbv zeta. unfold App.clear_all_data, StoryProcessor.clean_up; run_py.
  rewrite clear_vector_db_run.
  destruct (os_path_exists W (disk st)) eqn:Hex.
  - destruct (os_remove W (disk st)) as [d'|e] eqn:Hr; cbn [fst snd db disk].
    + split; [reflexivity|]. left. rewrite (Hrm _ _ Hr). repeat split.
    + split; [reflexivity|]. right. split; reflexivity.
  - cbn [fst snd db disk]. split; [reflexivity|]. left. rewrite Hex.
    repeat split.
Qed.

(** X15 at work: an index that is in memory only is cleared from the
    button. *)
Lemma clear_all_data_shows_outcome_witness :
  let W := Sim.world Sim.healthy in
  let st := Sim.loaded Sim.healthy Sim.tale_index Sim.Absent in
  snd (App.clear_all_data W st) = snd (VectorDB.clear_vector_db W st).
Proof.
  refine (proj1 (clear_all_data_shows_outcome
                   (Sim.world Sim.healthy) _
                   (Sim.loaded Sim.healthy Sim.tale_index Sim.Absent))).
  intros [|index] d' H; discriminate H.
Defined.

(** X16: [initialize_processor].  It returns a processor only when one was
    constructed with a non-empty key, the environment's if it has one and
    otherwise the secret, and then shows nothing; whenever it returns [None]
    it shows exactly one error box; and with a non-empty key in the
    environment the secrets are not consulted: the outcome is that of the
    constructor on that key, whatever the secrets would give. *)
Theorem initialize_processor_key (Processor : Type) (getenv : option str)
        (secrets_get : pyresult (option str))
        (new_processor : str -> pyresult Processor) :
  let out := App.initialize_processor getenv secrets_get new_processor in
  (forall processor,
      snd out = Some processor ->
      fst out = []
      /\ exists key,
          key <> []
          /\ new_processor key = Return processor
          /\ (getenv = Some key
              \/ App.truthy getenv = false
                 /\ secrets_get = Return (Some key)))
  /\ (snd out = None -> exists body, fst out = [St_error body])
  /\ (forall key other_secrets,
         getenv = Some key -> key <> [] ->
         out = App.initialize_processor getenv other_secrets new_processor).
Proof.
  cbv zeta. unfold App.initialize_processor. split; [|split].
  - intros processor.
    destruct (App.truthy getenv) eqn:Henv.
    + destruct getenv as [[|c key]|]; try discriminate.
      destruct (new_processor (c :: key)) as [p|e] eqn:Hnew; cbn [fst snd];
        [|discriminate].
      intros H; inversion H; subst p. split; [reflexivity|].
      exists (c :: key). repeat split; [discriminate | exact Hnew|].
      left; reflexivity.
    + destruct secrets_get as [[[|c key]|]|e]; cbn [fst snd];
        try discriminate.
      destruct (new_processor (c :: key)) as [p|e] eqn:Hnew; cbn [fst snd];
        [|discriminate].
      intros H; inversion H; subst p. split; [reflexivity|].
      exists (c :: key). repeat split; [discriminate | exact Hnew|].
      right; split; reflexivity.
  - destruct (if App.truthy getenv then Return getenv else secrets_get)
      as [[[|c key]|]|e]; cbn [fst snd]; try (intros _; eexists; reflexivity).
    destruct (new_processor (c :: key)); cbn [fst snd];
      [discriminate | intros _; eexists; reflexivity].
  - intros key other -> Hkey. destruct key as [|c key]; [congruence|].
    reflexivity.
Qed.

(** X16 at work: a key in the environment, and a secrets file that cannot
    be read. *)
Lemma initialize_processor_key_witness :
  App.initialize_processor
    (Some (lit "k3y"))
    (Raise (Exn FileNotFoundError (lit "No secrets files found.")))
    (fun key => Return key)
  = App.initialize_processor (Some (lit "k3y")) (Return None)
                             (fun key => Return key).
Proof.
  refine (proj2 (proj2 (initialize_processor_key
                          str (Some (lit "k3y"))
                          (Raise (Exn FileNotFoundError
                                      (lit "No secrets files found.")))
                          (fun key => Return key)))
                (lit "k3y") (Return None) eq_refl _).
  discriminate.
Defined.

(** ** The error results of a query *)

(** X17: which error a failed query reports.  With an index in memory, a
    failure of the chain comes back as "Error getting character
    information: " followed by the text of the exception; so does an
    exception of [json.loads] that is not a [JSONDecodeError], which is not
    reported as a parse error; in both cases the chain was run once and the
    index is kept. *)
Theorem get_character_info_error_text (W : World) (character_name : str)
        (st : State W) (index : FAISS (vector W)) :
  db st = Some index ->
  let out := StoryProcessor.get_character_info W character_name st in
  (forall e,
      qa_chain_run W index 4 character_name = Raise e ->
      fst out = Return (StoryProcessor.error_result
                          (lit "Error getting character information: "
                               ++ exc_str e)))
  /\ (forall response e,
         qa_chain_run W index 4 character_name = Return response ->
         json_loads W response = Raise e ->
         is_JSONDecodeError e = false ->
         fst out = Return (StoryProcessor.error_result
                             (lit "Error getting character information: "
                                  ++ exc_str e)))
  /\ snd out = with_trace st [ChainRun character_name].
Proof.
  intros Hdb; cbv zeta.
  rewrite (get_character_info_loaded W character_name st index Hdb).
  unfold answer_from; cbn [fst snd]. split; [|split].
  - intros e ->; reflexivity.
  - intros response e -> -> ->; reflexivity.
  - reflexivity.
Qed.

(** X17 at work: the retriever of the chain cannot reach the provider to
    embed the query. *)
Lemma get_character_info_error_text_witness :
  let st := Sim.loaded Sim.offline Sim.tale_index Sim.Absent in
  fst (StoryProcessor.get_character_info (Sim.world Sim.offline) (lit "Alice") st)
  = Return (StoryProcessor.error_result
              (lit "Error getting character information: "
                   ++ lit "embedding provider unreachable")).
Proof.
  exact (proj1 (get_character_info_error_text
                  (Sim.world Sim.offline) (lit "Alice")
                  (Sim.loaded Sim.offline Sim.tale_index Sim.Absent)
                  Sim.tale_index eq_refl)
               Sim.provider_down eq_refl).
Defined.

(** ** Clearing what the code itself saved *)

Lemma sim_saves_a_directory (s : Sim.setup) : saves_a_directory (Sim.world s).
Proof.
  intros index d d' H. cbn in H.
  destruct (Sim.write_protected s); inversion H; subst.
  split; [reflexivity | eexists; reflexivity].
Qed.

(** What [clear_vector_db] does right after a build that returned
    [True]. *)
Lemma clear_after_build_run (W : World) (Hdir : saves_a_directory W)
      (documents : list str_or_document) (st : State W) :
  fst (VectorDB.create_vector_db W documents st) = Return true ->
  exists index e,
    db (snd (VectorDB.create_vector_db W documents st)) = Some index
    /\ os_path_exists W (disk (snd (VectorDB.create_vector_db W documents st)))
       = true
    /\ VectorDB.clear_vector_db W (snd (VectorDB.create_vector_db W documents st))
       = (Return false,
          with_trace (snd (VectorDB.create_vector_db W documents st))
            [OsRemove;
             Print (lit "Error clearing vector database: " ++ exc_str e)]).
Proof.
  rewrite create_vector_db_run. cbv zeta.
  destruct (falsy documents); [discriminate|].
  destruct (embed_documents W _) as [vs|e0]; [|discriminate].
  destruct (save_local W _ _) as [[[]|e0] d'] eqn:Hsave; cbn [fst snd];
    [|discriminate].
  intros _. destruct (Hdir _ _ _ Hsave) as [Hex [e Hrm]].
  eexists; exists e. split; [reflexivity|]. split; [exact Hex|].
  rewrite clear_vector_db_run. cbn [db disk trace].
  rewrite Hex, Hrm. unfold with_trace; cbn [db disk trace].
  rewrite <- app_assoc. reflexivity.
Qed.

(** C4: the code at a failing input.  After a build that returned [True],
    [save_local] has left a directory at [db_path]; [clear_vector_db] then
    returns [False] with the index still in [db], and the search that
    follows does not fail with [NotInitialized]: it returns what the
    library's search returns on the index that was built. *)
Theorem search_after_build_and_clear (W : World) (Hdir : saves_a_directory W)
        (documents : list str_or_document) (st : State W)
        (query : str) (k : Z) :
  let built := snd (VectorDB.create_vector_db W documents st) in
  let cleared := VectorDB.clear_vector_db W built in
  fst (VectorDB.create_vector_db W documents st) = Return true ->
  fst cleared = Return false
  /\ db (snd cleared) = db built
  /\ exists index,
      db built = Some index
      /\ fst (VectorDB.similarity_search W query k (snd cleared))
         = index_search W index query k.
Proof.
  cbv zeta. intros Hbuilt.
  destruct (clear_after_build_run W Hdir documents st Hbuilt)
    as (index & e & Hdb & _ & ->).
  cbn [fst snd with_trace db]. split; [reflexivity|]. split; [reflexivity|].
  exists index. split; [exact Hdb|].
  rewrite similarity_search_run. cbn [with_trace db]. rewrite Hdb. reflexivity.
Qed.

(** C4 at work: the story is indexed, cleared, and still found. *)
Lemma search_after_build_and_clear_witness :
  let W := Sim.world Sim.healthy in
  let built := snd (VectorDB.create_vector_db W [Doc Sim.tale]
                                              (Sim.fresh Sim.healthy Sim.Absent)) in
  let cleared := VectorDB.clear_vector_db W built in
  fst cleared = Return false
  /\ fst (VectorDB.similarity_search W (lit "Alice") 4 (snd cleared))
     = Return [Sim.tale].
Proof.
  destruct (search_after_build_and_clear
              (Sim.world Sim.healthy) (sim_saves_a_directory _)
              [Doc Sim.tale] (Sim.fresh Sim.healthy Sim.Absent)
              (lit "Alice") 4 eq_refl)
    as (Hfalse & _ & index & Hindex & Hsearch).
  split; [exact Hfalse|].
  rewrite Hsearch. inversion Hindex. reflexivity.
Defined.

(** C5: the code at a failing input.  After a build that returned [True],
    [clear_vector_db] (and so [clean_up]) returns [False]: [os.remove]
    raises on the directory [save_local] wrote, the directory stays at
    [db_path] and the index stays in [db]; a second call does the same. *)
Theorem clear_after_build_removes_nothing (W : World)
        (Hdir : saves_a_directory W)
        (documents : list str_or_document) (st : State W) :
  let built := snd (VectorDB.create_vector_db W documents st) in
  let once := VectorDB.clear_vector_db W built in
  let twice := VectorDB.clear_vector_db W (snd once) in
  fst (VectorDB.create_vector_db W documents st) = Return true ->
  fst once = Return false
  /\ db (snd once) = db built
  /\ (exists index, db (snd once) = Some index)
  /\ disk (snd once) = disk built
  /\ os_path_exists W (disk (snd once)) = true
  /\ fst twice = Return false
  /\ StoryProcessor.clean_up W built = once.
Proof.
  cbv zeta. intros Hbuilt.
  destruct (clear_after_build_run W Hdir documents st Hbuilt)
    as (index & e & Hdb & Hex & Hclear).
  assert (Hrm : exists e', os_remove W (disk (snd (VectorDB.create_vector_db
                                                     W documents st)))
                           = Raise e').
  { pose proof Hclear as H. rewrite clear_vector_db_run, Hex in H.
    destruct (os_remove W _) as [d'|e'];
      [discriminate H | eexists; reflexivity]. }
  destruct Hrm as [e' Hrm].
  unfold StoryProcessor.clean_up. rewrite Hclear.
  cbn [fst snd with_trace db disk].
  split; [reflexivity|]. split; [reflexivity|].
  split; [exists index; exact Hdb|]. split; [reflexivity|].
  split; [exact Hex|]. split; [|reflexivity].
  rewrite clear_vector_db_run. cbn [with_trace disk]. rewrite Hex, Hrm.
  reflexivity.
Qed.

(** C5 at work: the story is indexed, then cleared twice. *)
Lemma clear_after_build_removes_nothing_witness :
  let W := Sim.world Sim.healthy in
  let built := snd (VectorDB.create_vector_db W [Doc Sim.tale]
                                              (Sim.fresh Sim.healthy Sim.Absent)) in
  let once := VectorDB.clear_vector_db W built in
  fst once = Return false
  /\ db (snd once) = db built
  /\ os_path_exists W (disk (snd once)) = true
  /\ fst (VectorDB.clear_vector_db W (snd once)) = Return false.
Proof.
  destruct (clear_after_build_removes_nothing
              (Sim.world Sim.healthy) (sim_saves_a_directory _)
              [Doc Sim.tale] (Sim.fresh Sim.healthy Sim.Absent) eq_refl)
    as (H1 & H2 & _ & _ & H5 & H6 & _).
  repeat split; assumption.
Defined.


(** ** How a text is packed into chunks *)

Section Packing.
Import CharacterTextSplitter.
Variable ts : t.
Hypothesis overlap_nonneg : (0 <= chunk_overlap ts)%Z.
Hypothesis size_nonneg : (0 <= chunk_size ts)%Z.

Lemma emit_chunk (docs cd : list str) :
  emit ts docs cd = docs ++ chunk_of_run ts cd.
Proof.
  unfold emit, chunk_of_run.
  destruct (join_docs ts cd); [reflexivity | rewrite app_nil_r; reflexivity].
Qed.

Lemma run_within_open (cd : list str) (total : Z) :
  open_chunk ts cd total ->
  (total <= chunk_size ts)%Z
  \/ (exists u, cd = [u] /\ (chunk_size ts < len u)%Z) ->
  run_within ts cd.
Proof.
  intros [Ht _] [Hle|Hbig]; [left | right; exact Hbig].
  unfold joined_len. rewrite <- Ht. exact Hle.
Qed.

(** Dropping the leading units stops at the first end of the chunk that
    may be carried: the unit dropped last could not stay. *)
Lemma pop_front_longest (next_len : Z) (cd : list str) :
  forall (total : Z) (cd' : list str) (total' : Z),
    open_chunk ts cd total ->
    pop_front ts next_len cd total = Return (cd', total') ->
    exists dropped,
      cd = dropped ++ cd'
      /\ (dropped = []
          \/ exists front u,
              dropped = front ++ [u]
              /\ ((chunk_overlap ts < joined_len ts (u :: cd'))%Z
                  \/ (chunk_size ts
                      < joined_len ts (u :: cd') + len (separator ts)
                        + next_len)%Z)).
Proof.
  induction cd as [|u cd IH]; intros total cd' total' Hopen; cbn [pop_front].
  - destruct (_ || _); [discriminate|].
    intros H; inversion H; subst.
    exists []. split; [reflexivity | left; reflexivity].
  - destruct ((chunk_overlap ts <? total)%Z
              || (chunk_size ts <? total + next_len + sep_after ts 0 (u :: cd))%Z
                 && (0 <? total)%Z) eqn:Hcond.
    + intros Hrun. destruct Hopen as [Ht Hne].
      inversion Hne as [|? ? Hu Hrest]; subst.
      assert (Hopen2 : open_chunk ts cd
                         (len (join (separator ts) (u :: cd))
                          - (len u + sep_after ts 1 (u :: cd)))).
      { split; [|exact Hrest].
        rewrite (join_cons_len ts), (sep_after_1_cons ts).
        destruct cd; cbn [falsy join];
          [change (len (@nil N)) with 0%Z; lia | lia]. }
      destruct (IH _ cd' total' Hopen2 Hrun) as (dropped & Hcd & Hlong).
      exists (u :: dropped). split; [rewrite Hcd at 1; reflexivity|].
      right. destruct Hlong as [->|(front & v & -> & Hv)].
      * exists [], u. split; [reflexivity|].
        cbn [app] in Hcd. subst cd'.
        rewrite (sep_after_0 ts) in Hcond. cbn [falsy] in Hcond.
        apply orb_true_iff in Hcond. unfold joined_len.
        destruct Hcond as [Hc|Hc].
        -- left. apply Z.ltb_lt in Hc. exact Hc.
        -- right. apply andb_true_iff in Hc. destruct Hc as [Hc _].
           apply Z.ltb_lt in Hc. lia.
      * exists (u :: front), v. split; [reflexivity | exact Hv].
    + intros H; inversion H; subst.
      exists []. split; [reflexivity | left; reflexivity].
Qed.

(** The merge loop, read as runs: from an open chunk made of what was
    carried and the units taken since, it returns the chunks of the runs
    that pack the units taken since and those still to come. *)
Lemma merge_loop_packed (splits : list str) :
  Forall (fun u => falsy u = false) splits ->
  forall (prev carried fresh docs : list str) (total : Z),
    run_start ts prev fresh carried ->
    open_chunk ts (carried ++ fresh) total ->
    run_within ts (carried ++ fresh) ->
    exists runs,
      merge_loop ts splits docs (carried ++ fresh) total
      = Return (docs ++ flat_map (chunk_of_run ts) runs)
      /\ packed ts prev (fresh ++ splits) runs.
Proof.
  induction splits as [|d rest IH];
    intros Hne prev carried fresh docs total Hstart Hopen Hwithin.
  - exists [carried ++ fresh]. split.
    + cbn [merge_loop flat_map]. rewrite emit_chunk, app_nil_r. reflexivity.
    + rewrite app_nil_r. apply packed_last; assumption.
  - inversion Hne as [|? ? Hd Hrest]; subst.
    cbn [merge_loop].
    destruct ((chunk_size ts <? total + len d + sep_after ts 0 (carried ++ fresh))%Z
              && negb (falsy (carried ++ fresh))) eqn:Hcond.
    + apply andb_true_iff in Hcond. destruct Hcond as [Hbig Hcd].
      apply Z.ltb_lt in Hbig. apply negb_true_iff in Hcd.
      destruct (pop_front_spec ts overlap_nonneg (len d) (carried ++ fresh)
                               total Hopen)
        as (cd' & total' & Hrun & Hopen' & _ & Hfit).
      destruct (pop_front_carries_overlap ts (len d) (carried ++ fresh)
                                          total cd' total' Hrun)
        as (Hover & _).
      destruct (pop_front_longest (len d) (carried ++ fresh)
                                  total cd' total' Hopen Hrun)
        as (dropped & Hdropped & Hlong).
      rewrite Hrun.
      destruct (append_ok ts cd' total' d Hopen' Hd Hfit) as [Hopen2 Hsize2].
      destruct (IH Hrest (carried ++ fresh) cd' [d]
                   (emit ts docs (carried ++ fresh))
                   (total' + len d + sep_after ts 1 (cd' ++ [d]))%Z)
        as (runs & Hloop & Hpacked).
      * exists dropped. split; [exact Hdropped|]. split.
        -- destruct cd' as [|c cd'']; [left; reflexivity | right].
           rewrite (sep_after_0 ts) in Hfit. cbn [falsy] in Hfit.
           destruct Hfit as [Hfit|Hfit]; [|discriminate Hfit].
           unfold joined_len. destruct Hopen' as [<- _]. lia.
        -- destruct Hlong as [Hl|(front & u & Hl & Hu)];
             [left; exact Hl | right].
           exists front, u. split; [exact Hl|]. lia.
      * exact Hopen2.
      * eapply run_within_open; eassumption.
      * exists ((carried ++ fresh) :: runs). split.
        -- rewrite Hloop, emit_chunk, <- app_assoc. reflexivity.
        -- apply packed_next; try assumption.
           ++ intros ->. destruct Hstart as [_ ->]. discriminate Hcd.
           ++ rewrite (sep_after_0 ts), Hcd in Hbig.
              unfold joined_len. destruct Hopen as [<- _]. lia.
    + assert (Hfit : (total + len d + sep_after ts 0 (carried ++ fresh)
                      <= chunk_size ts)%Z
                     \/ carried ++ fresh = []).
      { apply andb_false_iff in Hcond. destruct Hcond as [Hc|Hc].
        - left. apply Z.ltb_ge in Hc; exact Hc.
        - right. apply negb_false_iff in Hc. apply falsy_nil; exact Hc. }
      destruct (append_ok ts (carried ++ fresh) total d Hopen Hd Hfit)
        as [Hopen2 Hsize2].
      rewrite <- app_assoc in Hopen2, Hsize2 |- *.
      destruct (IH Hrest prev carried (fresh ++ [d]) docs
                   (total + len d + sep_after ts 1 (carried ++ fresh ++ [d]))%Z)
        as (runs & Hloop & Hpacked).
      * destruct fresh as [|f more]; [|exact Hstart].
        destruct Hstart as [-> ->]. exists [].
        split; [reflexivity|]. split; left; reflexivity.
      * exact Hopen2.
      * eapply run_within_open; eassumption.
      * exists runs. split; [exact Hloop|].
        rewrite <- app_assoc in Hpacked. exact Hpacked.
Qed.

Lemma split_text_packed (text : str) :
  exists runs,
    packed ts [] (units ts text) runs
    /\ split_text ts text = Return (flat_map (chunk_of_run ts) runs).
Proof.
  destruct (merge_loop_packed (units ts text) (units_nonempty ts text)
                              [] [] [] [] 0%Z)
    as (runs & Hloop & Hpacked).
  - split; reflexivity.
  - split; [reflexivity | constructor].
  - left. exact size_nonneg.
  - exists runs. split; [exact Hpacked | exact Hloop].
Qed.

Lemma split_documents_chunks (documents : list Document) :
  split_documents ts documents
  = Return (flat_map (chunks_of_document ts) documents).
Proof.
  induction documents as [|doc rest IH]; [reflexivity|].
  cbn [split_documents flat_map]. unfold chunks_of_document at 1.
  destruct (split_text_packed (page_content doc)) as (runs & _ & ->).
  rewrite IH. reflexivity.
Qed.

(** Every unit of the text is in a run. *)
Lemma packed_covers (prev units : list str) (runs : list (list str)) :
  packed ts prev units runs ->
  forall u, In u units -> exists run, In run runs /\ In u run.
Proof.
  induction 1 as [prev carried fresh _ _
                 |prev carried fresh next rest runs _ _ _ _ _ IH];
    intros u Hu.
  - exists (carried ++ fresh). split; [left; reflexivity|].
    apply in_or_app; right; exact Hu.
  - apply in_app_or in Hu. destruct Hu as [Hu|Hu].
    + exists (carried ++ fresh). split; [left; reflexivity|].
      apply in_or_app; right; exact Hu.
    + destruct (IH u Hu) as (run & Hrun & Hin).
      exists run. split; [right; exact Hrun | exact Hin].
Qed.

(** Every run is within the size, or is a single oversized unit. *)
Lemma packed_within (prev units : list str) (runs : list (list str)) :
  packed ts prev units runs -> Forall (run_within ts) runs.
Proof.
  induction 1; constructor; try assumption. constructor.
Qed.

(** A run gives no chunk when nothing but whitespace is in it, and
    otherwise its units joined and stripped, no longer than the run. *)
Lemma chunk_of_run_cases (run : list str) :
  let chunk := finish ts (join (separator ts) run) in
  (chunk = [] /\ chunk_of_run ts run = [])
  \/ (chunk_of_run ts run = [chunk]
      /\ (0 < len chunk <= joined_len ts run)%Z).
Proof.
  cbv zeta. unfold chunk_of_run, join_docs.
  fold (finish ts (join (separator ts) run)).
  destruct (falsy (finish ts (join (separator ts) run))) eqn:Hf.
  - left. split; [apply falsy_nil; exact Hf | reflexivity].
  - right. split; [reflexivity|]. split; [apply falsy_len; exact Hf|].
    unfold joined_len. apply (finish_len ts).
Qed.
End Packing.

(** ** The chunks of the build path *)

(** What [compute_embeddings] hands to the embedding provider: the chunks
    of the files that decode, document after document. *)
Lemma compute_embeddings_embeds_chunks (W : World)
      (files : list UploadedFile) (st : State W) :
  let texts := flat_map (chunks_of_document StoryProcessor.text_splitter)
                        (decoded_documents files) in
  texts <> [] ->
  exists rest,
    trace (snd (StoryProcessor.compute_embeddings W files st))
    = trace st ++ decode_warnings W files
      ++ EmbedDocuments (map page_content texts) :: rest.
Proof.
  cbv zeta. intros Hsome.
  rewrite compute_embeddings_run. cbv zeta.
  rewrite (split_documents_chunks StoryProcessor.text_splitter
             ltac:(cbn; lia) ltac:(cbn; lia)).
  destruct files as [|file files']; [exfalso; apply Hsome; reflexivity|].
  cbn [falsy].
  destruct (decoded_documents (file :: files')) as [|doc docs] eqn:Hdocs;
    [exfalso; apply Hsome; reflexivity|].
  cbn [falsy]. rewrite create_vector_db_run. cbv zeta.
  rewrite ensure_documents_of_docs.
  destruct (flat_map _ (doc :: docs)) as [|chunk chunks];
    [exfalso; apply Hsome; reflexivity|].
  cbn [map falsy].
  destruct (embed_documents W _) as [vs|e].
  - destruct (save_local W _ _) as [[u|e] d']; eexists;
      cbn [snd trace with_trace]; rewrite <- app_assoc; reflexivity.
  - eexists. cbn [snd trace with_trace]. rewrite <- app_assoc. reflexivity.
Qed.

(** C8, as stated, fails: the chunks of the build path can share nothing,
    and an oversized unit is not kept whole.  A story of a 500-character line and a 600-character
    line is embedded as the two lines, with no character of the first in the
    second; a file of one line of 1200 spaces, a unit longer than
    [chunk_size], gives no chunk at all, and the build fails. *)
Lemma build_path_chunks_share_nothing :
  let W := Sim.world Sim.healthy in
  let st := Sim.fresh Sim.healthy Sim.Absent in
  let ts := StoryProcessor.text_splitter in
  let story := {| name := lit "story.txt";
                  read := repeat x61 500 ++ [x0a] ++ repeat x62 600 |} in
  let blank := {| name := lit "blank.txt"; read := repeat x20 1200 |} in
  trace (snd (StoryProcessor.compute_embeddings W [story] st))
  = [EmbedDocuments [repeat 97%N 500; repeat 98%N 600]; SaveLocal;
     Print (lit "Successfully saved vector database to vector_store.faiss")]
  /\ map page_content (decoded_documents [blank]) = [repeat 32%N 1200]
  /\ CharacterTextSplitter.units ts (repeat 32%N 1200) = [repeat 32%N 1200]
  /\ (CharacterTextSplitter.chunk_size ts <? len (repeat 32%N 1200))%Z = true
  /\ CharacterTextSplitter.split_documents ts (decoded_documents [blank])
     = Return []
  /\ fst (StoryProcessor.compute_embeddings W [blank] st)
     = Return (lit "Error storing embeddings").
Proof. vm_compute. repeat split. Qed.

(** C8, amended: the build path chunks every document that decodes with
    [chunk_size] 1000, [chunk_overlap] 200 and the newline separator, and
    the chunks, document after document, are what [compute_embeddings] sends
    to the embedding provider.  The chunks of a document come from runs of
    its newline-delimited units that pack all of them in order: a run starts
    with the longest end of the run before, in whole units, that is at most
    200 characters long and leaves room for the next unit (possibly
    nothing), goes on with the next units and closes where one more would
    exceed 1000 characters; joined by newlines a run is at most 1000
    characters long unless it is a single unit longer than that.  The chunk
    of a run is the run joined by newlines and stripped of surrounding
    whitespace, with the metadata of the document; a run of which nothing
    is left gives no chunk. *)
Theorem build_path_chunking (W : World) (files : list UploadedFile)
        (st : State W) :
  let ts := StoryProcessor.text_splitter in
  let documents := decoded_documents files in
  let texts := flat_map (chunks_of_document ts) documents in
  let out := StoryProcessor.compute_embeddings W files st in
  (CharacterTextSplitter.chunk_size ts = 1000%Z
   /\ CharacterTextSplitter.chunk_overlap ts = 200%Z
   /\ CharacterTextSplitter.separator ts = [10%N])
  /\ CharacterTextSplitter.split_documents ts documents = Return texts
  /\ (texts <> [] ->
      exists rest,
        trace (snd out)
        = trace st ++ decode_warnings W files
          ++ EmbedDocuments (map page_content texts) :: rest)
  /\ forall doc, In doc documents ->
       exists runs,
         packed ts [] (CharacterTextSplitter.units ts (page_content doc)) runs
         /\ chunks_of_document ts doc
            = map (fun chunk => {| page_content := chunk;
                                   metadata := metadata doc |})
                  (flat_map (chunk_of_run ts) runs)
         /\ (forall u,
               In u (CharacterTextSplitter.units ts (page_content doc)) ->
               exists run, In run runs /\ In u run)
         /\ forall run, In run runs ->
              let chunk := strip (join [10%N] run) in
              ((joined_len ts run <= 1000)%Z
               \/ exists u, run = [u] /\ (1000 < len u)%Z)
              /\ ((chunk = [] /\ chunk_of_run ts run = [])
                  \/ (chunk_of_run ts run = [chunk]
                      /\ (0 < len chunk <= joined_len ts run)%Z)).
Proof.
  cbv zeta.
  assert (Hover : (0 <= CharacterTextSplitter.chunk_overlap
                          StoryProcessor.text_splitter)%Z) by (cbn; lia).
  assert (Hsize : (0 <= CharacterTextSplitter.chunk_size
                          StoryProcessor.text_splitter)%Z) by (cbn; lia).
  split; [repeat split|].
  split; [apply split_documents_chunks; assumption|].
  split; [apply compute_embeddings_embeds_chunks|].
  intros doc _.
  destruct (split_text_packed StoryProcessor.text_splitter Hover Hsize
                              (page_content doc))
    as (runs & Hpacked & Hsplit).
  exists runs. split; [exact Hpacked|].
  split; [unfold chunks_of_document; rewrite Hsplit; reflexivity|].
  split; [exact (packed_covers StoryProcessor.text_splitter _ _ _ Hpacked)|].
  intros run Hrun. split.
  - pose proof (packed_within StoryProcessor.text_splitter _ _ _ Hpacked)
      as Hwithin.
    rewrite Forall_forall in Hwithin. exact (Hwithin run Hrun).
  - exact (chunk_of_run_cases StoryProcessor.text_splitter run).
Qed.

(** C8 at work: a story of three lines of 500, 150 and 600 characters is
    embedded as two chunks, and the 150-character line, being under 200
    characters, is carried from the first into the second. *)
Lemma build_path_chunking_witness :
  let a := repeat 97%N 500 in
  let c := repeat 99%N 150 in
  let b := repeat 98%N 600 in
  let story := {| name := lit "story.txt";
                  read := repeat x61 500 ++ [x0a] ++ repeat x63 150
                          ++ [x0a] ++ repeat x62 600 |} in
  let out := StoryProcessor.compute_embeddings
               (Sim.world Sim.healthy) [story]
               (Sim.fresh Sim.healthy Sim.Absent) in
  exists rest,
    trace (snd out)
    = EmbedDocuments [a ++ [10%N] ++ c; c ++ [10%N] ++ b] :: rest.
Proof.
  cbv zeta.
  destruct (build_path_chunking
              (Sim.world Sim.healthy)
              [{| name := lit "story.txt";
                  read := repeat x61 500 ++ [x0a] ++ repeat x63 150
                          ++ [x0a] ++ repeat x62 600 |}]
              (Sim.fresh Sim.healthy Sim.Absent))
    as (_ & _ & Hembed & _).
  destruct Hembed as [rest Hrest]; [vm_compute; discriminate|].
  exists rest. rewrite Hrest. vm_compute. reflexivity.
Defined.
